(** * dbt-metabase-sync: the dbt project reader ([dbtmetabase/dbt.py])

    A shallow embedding of [DbtReader] ([read_models], [read_model],
    [read_column], [parse_ref]) and the properties of its normalised
    output.

    Scope of the model.
    - Python values are the values [yaml.safe_load] produces for the
      JSON-like fragment of YAML: [None], booleans, integers, strings,
      lists and string-keyed dicts.  Floats and timestamps behave like
      integers in every operation the reader uses.
    - Strings are ASCII text: [str.upper] and the regex class [\w] are
      modelled on ASCII letters, digits and the underscore.
    - Exceptions are values of [exn]; a raising call returns [Err].
    - [logging] calls are collected, in order, in a list of records. *)

From Stdlib Require Import Bool Arith List Lia ZArith.
From Stdlib Require Import Strings.Ascii Strings.String.
Import ListNotations.
Open Scope string_scope.
Open Scope list_scope.
Set Warnings "-register-all".

(* ================================================================== *)
(** * Python values *)

Module Py.

(** A dict keeps its insertion order, which is what iterating over it
    observes, so it is an association list; a lookup takes the first
    entry of a key, and the dicts built here never repeat one. *)
Inductive value : Type :=
| VNone
| VBool (b : bool)
| VInt (z : Z)
| VStr (s : string)
| VList (items : list value)
| VDict (entries : list (string * value)).

Definition dict := list (string * value).

Inductive exn : Type :=
| KeyError (key : string)
| AttributeError
| TypeError.

Inductive result (A : Type) : Type :=
| Ok (a : A)
| Err (e : exn).
Arguments Ok {A} a.
Arguments Err {A} e.

Definition rbind {A B} (r : result A) (k : A -> result B) : result B :=
  match r with
  | Ok a => k a
  | Err e => Err e
  end.

(** ** Dict primitives *)

(** [key in d] *)
Fixpoint dict_mem (key : string) (d : dict) : bool :=
  match d with
  | [] => false
  | (k, _) :: d' => if String.eqb k key then true else dict_mem key d'
  end.

(** [d.get(key)] as an option; [None] is the absent key. *)
Fixpoint dict_find (key : string) (d : dict) : option value :=
  match d with
  | [] => None
  | (k, v) :: d' => if String.eqb k key then Some v else dict_find key d'
  end.

(** [d.get(key, default)]; Python evaluates [default] before the call,
    so a raising default is sequenced by the caller. *)
Definition dict_get (key : string) (default : value) (d : dict) : value :=
  match dict_find key d with
  | Some v => v
  | None => default
  end.

(** [d[key]] *)
Definition dict_item (key : string) (d : dict) : result value :=
  match dict_find key d with
  | Some v => Ok v
  | None => Err (KeyError key)
  end.

(** [d[key] = v]: an existing key keeps its position, a new key goes
    last. *)
Fixpoint dict_set (key : string) (v : value) (d : dict) : dict :=
  match d with
  | [] => [(key, v)]
  | (k, w) :: d' =>
      if String.eqb k key then (k, v) :: d' else (k, w) :: dict_set key v d'
  end.

(** ** Operations on arbitrary values *)

(** [x.get]: only a dict has the attribute. *)
Definition as_dict (x : value) : result dict :=
  match x with
  | VDict d => Ok d
  | _ => Err AttributeError
  end.

(** [x.get(key, default)] with [default] already evaluated. *)
Definition py_get (key : string) (default : value) (x : value) : result value :=
  rbind (as_dict x) (fun d => Ok (dict_get key default d)).

(** [x[key]] for a string [key]: a dict looks the key up, a string or a
    list wants integer indices, the other values are not subscriptable. *)
Definition py_item (key : string) (x : value) : result value :=
  match x with
  | VDict d => dict_item key d
  | _ => Err TypeError
  end.

(** ASCII letter case. *)
Definition is_lower (c : ascii) : bool :=
  let n := nat_of_ascii c in ((97 <=? n) && (n <=? 122))%nat.

Definition is_upper (c : ascii) : bool :=
  let n := nat_of_ascii c in ((65 <=? n) && (n <=? 90))%nat.

Definition is_digit (c : ascii) : bool :=
  let n := nat_of_ascii c in ((48 <=? n) && (n <=? 57))%nat.

Definition upper_char (c : ascii) : ascii :=
  if is_lower c then ascii_of_nat (nat_of_ascii c - 32) else c.

(** [str.upper] *)
Fixpoint upper (s : string) : string :=
  match s with
  | EmptyString => EmptyString
  | String c s' => String (upper_char c) (upper s')
  end.

(** [x.upper()]: only a string has the attribute. *)
Definition py_upper (x : value) : result value :=
  match x with
  | VStr s => Ok (VStr (upper s))
  | _ => Err AttributeError
  end.

Definition chars (s : string) : list value :=
  map (fun c => VStr (String c EmptyString)) (list_ascii_of_string s).

(** [for x in v]: the elements of a list, the keys of a dict, the
    characters of a string; [None] and the scalars are not iterable. *)
Definition py_iter (v : value) : result (list value) :=
  match v with
  | VList items => Ok items
  | VDict d => Ok (map (fun kv => VStr (fst kv)) d)
  | VStr s => Ok (chars s)
  | _ => Err TypeError
  end.

(** [sub in s] on strings. *)
Fixpoint str_contains (sub s : string) : bool :=
  if String.prefix sub s then true
  else match s with
       | EmptyString => false
       | String _ s' => str_contains sub s'
       end.

Definition is_str (key : string) (v : value) : bool :=
  match v with
  | VStr s => String.eqb s key
  | _ => false
  end.

(** [key in x] for a string [key]: key membership in a dict, substring
    test in a string, element membership in a list. *)
Definition py_contains (key : string) (x : value) : result bool :=
  match x with
  | VDict d => Ok (dict_mem key d)
  | VStr s => Ok (str_contains key s)
  | VList items => Ok (existsb (is_str key) items)
  | _ => Err TypeError
  end.

(** [isinstance(x, dict)] *)
Definition is_dict (x : value) : bool :=
  match x with
  | VDict _ => true
  | _ => false
  end.

(** [x in names] for a list of strings [names]. *)
Definition py_in (x : value) (names : list string) : bool :=
  match x with
  | VStr s => existsb (String.eqb s) names
  | _ => false
  end.

End Py.
Import Py.

Notation "x <- r ;; k" := (rbind r (fun x => k))
  (at level 61, r at next level, right associativity).

(* ================================================================== *)
(** * The reference parser *)

Module Regex.

(** The pattern of [parse_ref], read item by item by a backtracking
    matcher: the literal [ref(], one quote character (single or
    double), group 1 made of one or more name characters (word
    characters, underscore, hyphen, space), one quote character, the
    literal [)]. *)

Definition dquote : ascii := ascii_of_nat 34.

(** The quote class: a single or a double quote. *)
Definition is_quote (c : ascii) : bool :=
  Ascii.eqb c "'" || Ascii.eqb c dquote.

(** The word class. *)
Definition is_word (c : ascii) : bool :=
  is_lower c || is_upper c || is_digit c || Ascii.eqb c "_".

(** The class of group 1. *)
Definition in_name_class (c : ascii) : bool :=
  is_word c || Ascii.eqb c "_" || Ascii.eqb c "-" || Ascii.eqb c " ".

(** A literal prefix: the rest of the text after it. *)
Fixpoint lit (p s : string) : option string :=
  match p, s with
  | EmptyString, _ => Some s
  | String a p', String b s' => if Ascii.eqb a b then lit p' s' else None
  | String _ _, EmptyString => None
  end.

(** One character of a class. *)
Definition one (cls : ascii -> bool) (s : string) : option string :=
  match s with
  | String c s' => if cls c then Some s' else None
  | EmptyString => None
  end.

(** The capturing group [([...]+)] followed by the continuation [k]:
    greedy, it takes one more character while it can and gives
    characters back, one at a time, when the rest of the pattern fails.
    [acc] is the text captured so far, in reverse. *)
Fixpoint plus (cls : ascii -> bool) (k : string -> string -> option string)
    (acc : list ascii) (s : string) : option string :=
  match s with
  | EmptyString => None
  | String c s' =>
      if cls c then
        match plus cls k (c :: acc) s' with
        | Some r => Some r
        | None => k (string_of_list_ascii (rev (c :: acc))) s'
        end
      else None
  end.

Definition obind {A B} (o : option A) (k : A -> option B) : option B :=
  match o with
  | Some a => k a
  | None => None
  end.

(** The closing quote and parenthesis after the group. *)
Definition closing (captured rest : string) : option string :=
  obind (one is_quote rest) (fun s1 =>
  obind (lit ")" s1) (fun _ => Some captured)).

(** A match of the whole pattern starting at the head of [s]: group 1. *)
Definition match_here (s : string) : option string :=
  obind (lit "ref(" s) (fun s1 =>
  obind (one is_quote s1) (fun s2 =>
  plus in_name_class closing [] s2)).

(** The first element of [re.findall(pattern, text)]: group 1 of the
    leftmost match. *)
Fixpoint first_match (s : string) : option string :=
  match match_here s with
  | Some g => Some g
  | None =>
      match s with
      | EmptyString => None
      | String _ s' => first_match s'
      end
  end.

End Regex.

(** [DbtReader.parse_ref] on a string. *)
Definition parse_ref (text : string) : string :=
  match Regex.first_match text with
  | Some name => name
  | None => text
  end.

(** [DbtReader.parse_ref] on any value: [re.findall] wants a string. *)
Definition parse_ref_value (text : value) : result value :=
  match text with
  | VStr s => Ok (VStr (parse_ref s))
  | _ => Err TypeError
  end.

(* ================================================================== *)
(** * Logging and the reader's monad *)

Inductive log_level : Type := INFO | WARNING.

(** One [logging.info(msg, *args)] or [logging.warning(msg, *args)]. *)
Record log_record : Type := LogRecord {
  level : log_level;
  message : string;
  args : list value
}.

(** A computation that logs, then returns or raises.  The records
    emitted before an exception stay emitted. *)
Definition M (A : Type) : Type := (list log_record * result A)%type.

Definition ret {A} (a : A) : M A := ([], Ok a).

Definition bind {A B} (m : M A) (k : A -> M B) : M B :=
  match m with
  | (l1, Ok a) => let (l2, r) := k a in (l1 ++ l2, r)
  | (l1, Err e) => (l1, Err e)
  end.

Definition lift {A} (r : result A) : M A := ([], r).

Definition logging_info (msg : string) (a : list value) : M unit :=
  ([LogRecord INFO msg a], Ok tt).

Definition logging_warning (msg : string) (a : list value) : M unit :=
  ([LogRecord WARNING msg a], Ok tt).

Definition logged {A} (m : M A) : list log_record := fst m.
Definition outcome {A} (m : M A) : result A := snd m.

Notation "x <~ m ;; k" := (bind m (fun x => k))
  (at level 61, m at next level, right associativity).
Notation "m ;;; k" := (bind m (fun _ => k))
  (at level 61, right associativity).

(** [for x in xs: s = body(s, x)] *)
Fixpoint rfor_each {S X} (body : S -> X -> result S) (xs : list X) (s : S)
    : result S :=
  match xs with
  | [] => Ok s
  | x :: xs' => s' <- body s x ;; rfor_each body xs' s'
  end.

Fixpoint for_each {S X} (body : S -> X -> M S) (xs : list X) (s : S) : M S :=
  match xs with
  | [] => ret s
  | x :: xs' => s' <~ body s x ;; for_each body xs' s'
  end.

(* ================================================================== *)
(** * The reader *)

(** Allowed metabase.* fields *)
Definition _META_FIELDS : list string := ["semantic_type"; "visibility_type"].

Definition deprecation_message : string :=
  "DEPRECATION: metabase.special_type is deprecated and will be removed, use metabase.semantic_type instead".

(** The body of the loop over [column.get("tests", [])] in
    [read_column].  In [column.get("meta", {}).get("metabase.fk_ref",
    self.parse_ref(relationships["to"])).upper()] the receiver and its
    [get] attribute come first, then the argument
    [parse_ref(relationships["to"])], then the call. *)
Definition detect_fk (column : value) (mb_column : dict) (test : value)
    : result dict :=
  if is_dict test then
    found <- py_contains "relationships" test ;;
    if (found : bool) then
      relationships <- py_item "relationships" test ;;
      let mb1 := dict_set "semantic_type" (VStr "type/FK") mb_column in
      meta <- py_get "meta" (VDict []) column ;;
      meta_get <- as_dict meta ;;
      to <- py_item "to" relationships ;;
      parsed <- parse_ref_value to ;;
      table <- py_upper (dict_get "metabase.fk_ref" parsed meta_get) ;;
      let mb2 := dict_set "fk_target_table" table mb1 in
      field <- py_item "field" relationships ;;
      field_upper <- py_upper field ;;
      Ok (dict_set "fk_target_field" field_upper mb2)
    else Ok mb_column
  else Ok mb_column.

(** The body of the loop over [_META_FIELDS]. *)
Definition copy_meta_field (meta : value) (mb_column : dict) (field : string)
    : result dict :=
  found <- py_contains ("metabase." ++ field) meta ;;
  if (found : bool) then
    v <- py_item ("metabase." ++ field) meta ;;
    Ok (dict_set field v mb_column)
  else Ok mb_column.

(** The deprecated [metabase.special_type]. *)
Definition apply_special_type (meta : value) (mb_column : dict) : M dict :=
  found <~ lift (py_contains "metabase.special_type" meta) ;;
  if (found : bool) then
    logging_warning deprecation_message [] ;;;
    if negb (dict_mem "semantic_type" mb_column) then
      v <~ lift (py_item "metabase.special_type" meta) ;;
      ret (dict_set "semantic_type" v mb_column)
    else ret mb_column
  else ret mb_column.

(** [DbtReader.read_column] *)
Definition read_column (column : value) : M value :=
  name <~ lift (py_get "name" (VStr "") column) ;;
  name_upper <~ lift (py_upper name) ;;
  description <~ lift (py_get "description" VNone column) ;;
  let mb0 := [("name", name_upper); ("description", description)] in
  tests <~ lift (py_get "tests" (VList []) column) ;;
  items <~ lift (py_iter tests) ;;
  mb1 <~ lift (rfor_each (detect_fk column) items mb0) ;;
  has_meta <~ lift (py_contains "meta" column) ;;
  if (has_meta : bool) then
    meta <~ lift (py_get "meta" (VDict []) column) ;;
    mb2 <~ lift (rfor_each (copy_meta_field meta) _META_FIELDS mb1) ;;
    mb3 <~ apply_special_type meta mb2 ;;
    ret (VDict mb3)
  else ret (VDict mb1).

(** [model.get("identifier", model["name"])]: the [get] attribute of
    the receiver, then the default [model["name"]], then the call. *)
Definition resolve_name (model : value) : result value :=
  d <- as_dict model ;;
  default <- py_item "name" model ;;
  Ok (dict_get "identifier" default d).

(** [DbtReader.read_model] *)
Definition read_model (model : value) : M value :=
  columns <~ lift (py_get "columns" (VList []) model) ;;
  items <~ lift (py_iter columns) ;;
  mb_columns <~ for_each
    (fun acc column => c <~ read_column column ;; ret (acc ++ [c])) items [] ;;
  name <~ lift (resolve_name model) ;;
  name_upper <~ lift (py_upper name) ;;
  description <~ lift (py_get "description" VNone model) ;;
  ret (VDict [("name", name_upper);
              ("description", description);
              ("columns", VList mb_columns)]).

(** [(not includes or name in includes) and (name not in excludes)] *)
Definition selected (includes excludes : list string) (name : value) : bool :=
  (match includes with [] => true | _ => false end || py_in name includes)
  && negb (py_in name excludes).

(** The body shared by the loop over [schema.get("models", [])]
    ([what] is ["Model: %s"]) and the loop over
    [source.get("tables", [])] ([what] is ["Source: %s"]). *)
Definition visit (what : string) (includes excludes : list string)
    (mb_models : list value) (model : value) : M (list value) :=
  name <~ lift (resolve_name model) ;;
  logging_info what [name] ;;;
  if selected includes excludes name then
    m <~ read_model model ;;
    ret (mb_models ++ [m])
  else ret mb_models.

(** The body of the loop over [schema.get("sources", [])]. *)
Definition visit_source (includes excludes : list string)
    (mb_models : list value) (source : value) : M (list value) :=
  tables <~ lift (py_get "tables" (VList []) source) ;;
  items <~ lift (py_iter tables) ;;
  for_each (visit "Source: %s" includes excludes) items mb_models.

(** The body of the loop over the [*.yml] files under [models/]:
    [path] and the value [yaml.safe_load] returned for it. *)
Definition visit_file (includes excludes : list string)
    (mb_models : list value) (file : string * value) : M (list value) :=
  let (path, schema) := file in
  logging_info "Processing model: %s" [VStr path] ;;;
  match schema with
  | VNone =>
      logging_warning "Skipping empty or invalid YAML: %s" [VStr path] ;;;
      ret mb_models
  | _ =>
      models <~ lift (py_get "models" (VList []) schema) ;;
      items <~ lift (py_iter models) ;;
      mb1 <~ for_each (visit "Model: %s" includes excludes) items mb_models ;;
      sources <~ lift (py_get "sources" (VList []) schema) ;;
      srcs <~ lift (py_iter sources) ;;
      for_each (visit_source includes excludes) srcs mb1
  end.

Definition or_empty (names : option (list string)) : list string :=
  match names with
  | Some l => l
  | None => []
  end.

(** [DbtReader.read_models]; [files] are the documents of the project
    in the order [rglob] yields them. *)
Definition read_models (files : list (string * value))
    (includes excludes : option (list string)) : M (list value) :=
  let includes := or_empty includes in
  let excludes := or_empty excludes in
  for_each (visit_file includes excludes) files [].

(* ================================================================== *)
(** * Vocabulary of the properties *)

(** Predicates on declarations and auxiliary functions in which the
    properties below are stated.  [detected] and [annotate] are the two
    halves of [read_column], and [read_columns] the loop of
    [read_model]; [read_column_dict] and [read_model_dict] prove that the
    source functions decompose that way. *)

(** Every character of [s] is in the class [cls]. *)
Fixpoint all_chars (cls : ascii -> bool) (s : string) : bool :=
  match s with
  | EmptyString => true
  | String c s' => cls c && all_chars cls s'
  end.

(** A relationship test: a mapping with a [relationships] key. *)
Definition is_relationship_test (test : value) : bool :=
  match test with
  | VDict t => dict_mem "relationships" t
  | _ => false
  end.

(** The tests sequence of a column contains a relationship test. *)
Definition has_relationship_test (column : value) : bool :=
  match column with
  | VDict c =>
      match dict_find "tests" c with
      | Some (VList tests) => existsb is_relationship_test tests
      | _ => false
      end
  | _ => false
  end.

(** The [meta] mapping of a column, empty when there is none. *)
Definition column_meta (c : dict) : dict :=
  match dict_find "meta" c with
  | Some (VDict m) => m
  | _ => []
  end.

(** What the column declarations of the data model look like: a test
    that is a mapping with a [relationships] key has a mapping there
    with strings under [to] and [field]. *)
Definition wf_test (test : value) : bool :=
  match test with
  | VDict t =>
      match dict_find "relationships" t with
      | None => true
      | Some (VDict r) =>
          match dict_find "to" r, dict_find "field" r with
          | Some (VStr _), Some (VStr _) => true
          | _, _ => false
          end
      | Some _ => false
      end
  | _ => true
  end.

(** The name, when given, is a string. *)
Definition wf_name (c : dict) : bool :=
  match dict_find "name" c with
  | None | Some (VStr _) => true
  | Some _ => false
  end.

(** The annotations, when given, are a mapping, and its [fk_ref], when
    given, is a string. *)
Definition wf_meta (c : dict) : bool :=
  match dict_find "meta" c with
  | None => true
  | Some (VDict m) =>
      match dict_find "metabase.fk_ref" m with
      | None | Some (VStr _) => true
      | Some _ => false
      end
  | Some _ => false
  end.

(** The tests, when given, are a sequence of well-formed tests. *)
Definition wf_tests (c : dict) : bool :=
  match dict_find "tests" c with
  | None => true
  | Some (VList tests) => forallb wf_test tests
  | Some _ => false
  end.

(** A column declaration of the data model: a mapping with an optional
    string [name], an optional sequence of [tests] and an optional
    mapping [meta]. *)
Definition wf_column (column : value) : bool :=
  match column with
  | VDict c => wf_name c && wf_tests c && wf_meta c
  | _ => false
  end.

(** The three keys a relationship test writes. *)
Definition set_fk (table field : string) (mb_column : dict) : dict :=
  dict_set "fk_target_field" (VStr field)
    (dict_set "fk_target_table" (VStr table)
       (dict_set "semantic_type" (VStr "type/FK") mb_column)).

(** The target table a relationship to [to] resolves to under the
    annotations [m]: the [fk_ref] override or the parsed reference. *)
Definition fk_table (m : dict) (to : string) : value :=
  dict_get "metabase.fk_ref" (VStr (parse_ref to)) m.

(** The first half of [read_column]: the dict literal, then the loop
    over the tests. *)
Definition detected (c : dict) : result dict :=
  name_upper <- py_upper (dict_get "name" (VStr "") c) ;;
  let mb0 := [("name", name_upper);
              ("description", dict_get "description" VNone c)] in
  items <- py_iter (dict_get "tests" (VList []) c) ;;
  rfor_each (detect_fk (VDict c)) items mb0.

(** The second half, under [if "meta" in column]. *)
Definition annotate (meta : value) (mb1 : dict) : M dict :=
  mb2 <~ lift (rfor_each (copy_meta_field meta) _META_FIELDS mb1) ;;
  apply_special_type meta mb2.

(** What the second half computes from a mapping [m]. *)
Definition copy_field (m : dict) (field : string) (mb : dict) : dict :=
  match dict_find ("metabase." ++ field) m with
  | Some v => dict_set field v mb
  | None => mb
  end.

(** The deprecated key fills [semantic_type] only when it is unset. *)
Definition special (m : dict) (mb : dict) : dict :=
  match dict_find "metabase.special_type" m with
  | Some v => if dict_mem "semantic_type" mb then mb
              else dict_set "semantic_type" v mb
  | None => mb
  end.

(** The column after the annotations [m]. *)
Definition annotated (m : dict) (mb : dict) : dict :=
  special m (copy_field m "visibility_type" (copy_field m "semantic_type" mb)).

(** The record of the deprecation warning, and the log of a column
    with annotations [m]. *)
Definition deprecation_warning : log_record :=
  LogRecord WARNING deprecation_message [].

Definition deprecation_log (m : dict) : list log_record :=
  if dict_mem "metabase.special_type" m then [deprecation_warning] else [].

(** The annotation a column gives for its semantic type: the current
    key, else the deprecated one. *)
Definition semantic_annotation (m : dict) : option value :=
  match dict_find "metabase.semantic_type" m with
  | Some v => Some v
  | None => dict_find "metabase.special_type" m
  end.

(** The keys the loop over the tests writes. *)
Definition is_fk_key (key : string) : bool :=
  String.eqb "semantic_type" key || String.eqb "fk_target_table" key ||
  String.eqb "fk_target_field" key.

(** The loop of [read_model] over the columns. *)
Definition read_columns (items : list value) : M (list value) :=
  for_each (fun acc column => c <~ read_column column ;; ret (acc ++ [c]))
    items [].

(** The columns, when given, are a sequence of well-formed columns. *)
Definition wf_columns (m : dict) : bool :=
  match dict_find "columns" m with
  | None => true
  | Some (VList columns) => forallb wf_column columns
  | Some _ => false
  end.

(** A model or source-table entry of the data model: a mapping with a
    [name], whose resolved name is a string. *)
Definition wf_model (model : value) : bool :=
  match model with
  | VDict m =>
      match dict_find "name" m with
      | Some n =>
          match dict_get "identifier" n m with
          | VStr _ => wf_columns m
          | _ => false
          end
      | None => false
      end
  | _ => false
  end.

(** The elements a [for] loop runs over, none when the value is not
    iterable. *)
Definition iter_or_empty (v : value) : list value :=
  match py_iter v with
  | Ok items => items
  | Err _ => []
  end.

(** The tables of one source. *)
Definition source_tables (source : value) : list value :=
  match source with
  | VDict s => iter_or_empty (dict_get "tables" (VList []) s)
  | _ => []
  end.

(** The entries of one document: its models, then the tables of its
    sources, in declaration order. *)
Definition schema_entries (schema : value) : list value :=
  match schema with
  | VDict d =>
      iter_or_empty (dict_get "models" (VList []) d) ++
      flat_map source_tables (iter_or_empty (dict_get "sources" (VList []) d))
  | _ => []
  end.

(** The entries of the project, document after document. *)
Definition project_entries (files : list (string * value)) : list value :=
  flat_map (fun file => schema_entries (snd file)) files.

(** The filter on an entry: its resolved name passes [selected]. *)
Definition keeps (includes excludes : list string) (entry : value) : bool :=
  match resolve_name entry with
  | Ok name => selected includes excludes name
  | Err _ => false
  end.

(** [r] is the normalised record of [entry]. *)
Definition normalises (entry r : value) : Prop :=
  outcome (read_model entry) = Ok r.

(** A source: a mapping whose [tables], when given, are entries. *)
Definition wf_source (source : value) : bool :=
  match source with
  | VDict s =>
      match dict_find "tables" s with
      | None => true
      | Some (VList tables) => forallb wf_model tables
      | Some _ => false
      end
  | _ => false
  end.

(** A document: empty, or a mapping of [models] and [sources]. *)
Definition wf_schema (schema : value) : bool :=
  match schema with
  | VNone => true
  | VDict d =>
      match dict_find "models" d with
      | None => true
      | Some (VList models) => forallb wf_model models
      | Some _ => false
      end &&
      match dict_find "sources" d with
      | None => true
      | Some (VList sources) => forallb wf_source sources
      | Some _ => false
      end
  | _ => false
  end.

Definition wf_project (files : list (string * value)) : bool :=
  forallb (fun file => wf_schema (snd file)) files.

(** [isinstance(x, str)] *)
Definition is_string (x : value) : bool :=
  match x with
  | VStr _ => true
  | _ => false
  end.

(** The values a [for] loop and the [in] operator accept. *)
Definition is_iterable (x : value) : bool :=
  match x with
  | VList _ | VDict _ | VStr _ => true
  | _ => false
  end.

(** The computation returned rather than raised. *)
Definition returns_ok {A} (m : M A) : bool :=
  match outcome m with
  | Ok _ => true
  | Err _ => false
  end.

(** The keys a normalised column can carry. *)
Definition column_fields : list string :=
  ["name"; "description"; "semantic_type"; "visibility_type";
   "fk_target_table"; "fk_target_field"].


(** The two records [read_models] logs about a document itself. *)
Definition processing_record (path : string) : log_record :=
  LogRecord INFO "Processing model: %s" [VStr path].

Definition skipping_record (path : string) : log_record :=
  LogRecord WARNING "Skipping empty or invalid YAML: %s" [VStr path].

Definition is_file_record (r : log_record) : bool :=
  String.eqb (message r) "Processing model: %s" ||
  String.eqb (message r) "Skipping empty or invalid YAML: %s".

(** The records about one document: it is processed, and skipped when
    it parsed to [None]. *)
Definition file_records (file : string * value) : list log_record :=
  match snd file with
  | VNone => [processing_record (fst file); skipping_record (fst file)]
  | _ => [processing_record (fst file)]
  end.

(** A loop body that only appends to the list it is given can be run
    on the empty list, its output appended afterwards. *)
Definition appends {X} (body : list value -> X -> M (list value)) : Prop :=
  forall acc x, body acc x = (r <~ body [] x ;; ret (acc ++ r)).

(** No record of the log is about a document itself. *)
Definition no_file_record (log : list log_record) : Prop :=
  Forall (fun r => is_file_record r = false) log.

(* ================================================================== *)
(** * Sample declarations *)

Definition relationships_test (to field : string) : value :=
  VDict [("relationships", VDict [("to", VStr to); ("field", VStr field)])].

(** The column of the end-to-end scenario. *)
Definition customer_id_column : value :=
  VDict [("name", VStr "customer_id");
         ("tests", VList [VStr "not_null";
                          relationships_test "ref('orders')" "customer_id"])].

(** A column with a relationship test, the deprecated annotation and
    a visibility annotation. *)
Definition deprecated_meta : dict :=
  [("metabase.special_type", VStr "type/Category");
   ("metabase.visibility_type", VStr "hidden")].

Definition deprecated_fk_column : dict :=
  [("name", VStr "customer_id");
   ("tests", VList [relationships_test "ref('orders')" "customer_id"]);
   ("meta", VDict deprecated_meta)].

(** A column with two relationship tests. *)
Definition two_relationships_column : dict :=
  [("name", VStr "customer_id");
   ("tests", VList [relationships_test "ref('orders')" "customer_id";
                    relationships_test "ref('people')" "id"])].

(** A relationship without [to] on a column that overrides the target
    with [metabase.fk_ref]. *)
Definition missing_to_column : dict :=
  [("name", VStr "customer_id");
   ("tests", VList [VStr "not_null";
                    VDict [("relationships",
                            VDict [("field", VStr "customer_id")])]]);
   ("meta", VDict [("metabase.fk_ref", VStr "analytics.orders")])].

(** A source table that gives its physical name only. *)
Definition identifier_only_entry : dict := [("identifier", VStr "customers")].

(** A source table with both keys. *)
Definition identified_entry : dict :=
  [("name", VStr "customers"); ("identifier", VStr "dim_customers");
   ("description", VStr "One row per customer")].

(** A document with two models and one source table. *)
Definition orders_schema : value :=
  VDict [("models",
          VList [VDict [("name", VStr "orders")];
                 VDict [("name", VStr "customers")]]);
         ("sources",
          VList [VDict [("name", VStr "raw");
                        ("tables",
                         VList [VDict [("name", VStr "payments");
                                       ("identifier", VStr "raw_payments")]])]])].

(** A project of two documents, the first one empty. *)
Definition sample_project : list (string * value) :=
  [("models/empty.yml", VNone); ("models/schema.yml", orders_schema)].

(** A project whose first document is a YAML list. *)
Definition list_document_project : list (string * value) :=
  [("models/notes.yml", VList [VStr "todo"]);
   ("models/schema.yml", orders_schema)].

(* ================================================================== *)
(** * Facts about the reference parser *)

Example parse_ref_single_quote : parse_ref "ref('orders')" = "orders".
Proof. reflexivity. Qed.

Example parse_ref_embedded :
  parse_ref "{{ ref('stg-orders v2') }}" = "stg-orders v2".
Proof. reflexivity. Qed.

Example parse_ref_literal : parse_ref "public.orders" = "public.orders".
Proof. reflexivity. Qed.

Example parse_ref_unclosed : parse_ref "ref('orders'" = "ref('orders'".
Proof. reflexivity. Qed.

Example upper_mixed : upper "customer_id-7" = "CUSTOMER_ID-7".
Proof. reflexivity. Qed.

Module RegexFacts.
Import Regex.

Lemma all_chars_of_list cls l :
  all_chars cls (string_of_list_ascii l) = forallb cls l.
Proof.
  induction l as [|c l IH]; simpl; [reflexivity|].
  now rewrite IH.
Qed.

Lemma forallb_rev {A} (f : A -> bool) l : forallb f (rev l) = forallb f l.
Proof.
  induction l as [|a l IH]; simpl; [reflexivity|].
  rewrite forallb_app, IH. simpl. rewrite andb_true_r. apply andb_comm.
Qed.

Lemma closing_returns_group captured rest r :
  closing captured rest = Some r -> r = captured.
Proof.
  unfold closing, obind.
  destruct (one is_quote rest) as [s1|]; [|discriminate].
  destruct (lit ")" s1); [|discriminate].
  now intros [= <-].
Qed.

(** What the group captures is made of class characters only. *)
Lemma plus_captures_class cls s : forall acc r,
  forallb cls acc = true ->
  plus cls closing acc s = Some r ->
  all_chars cls r = true.
Proof.
  induction s as [|c s IH]; intros acc r Hacc; simpl; [discriminate|].
  destruct (cls c) eqn:Hc; [|discriminate].
  assert (Hacc' : forallb cls (c :: acc) = true) by (simpl; now rewrite Hc).
  destruct (plus cls closing (c :: acc) s) as [r'|] eqn:Hplus.
  - intros [= <-]. eapply IH; eassumption.
  - intros Hk. apply closing_returns_group in Hk. subst r.
    rewrite all_chars_of_list.
    change (rev acc ++ [c]) with (rev (c :: acc)).
    rewrite forallb_rev. exact Hacc'.
Qed.

Lemma match_here_class s r :
  match_here s = Some r -> all_chars in_name_class r = true.
Proof.
  unfold match_here, obind.
  destruct (lit "ref(" s) as [s1|]; [|discriminate].
  destruct (one is_quote s1) as [s2|]; [|discriminate].
  now apply plus_captures_class.
Qed.

Lemma first_match_class s : forall r,
  first_match s = Some r -> all_chars in_name_class r = true.
Proof.
  induction s as [|c s IH]; intros r; simpl.
  - discriminate.
  - destruct (match_here (String c s)) eqn:H.
    + intros [= <-]. eapply match_here_class; eassumption.
    + apply IH.
Qed.

Lemma lit_prefix p : forall s r, lit p s = Some r -> s = (p ++ r)%string.
Proof.
  induction p as [|a p IH]; intros [|b s] r; simpl; try discriminate.
  - now intros [= <-].
  - now intros [= <-].
  - destruct (Ascii.eqb a b) eqn:Hab; [|discriminate].
    apply Ascii.eqb_eq in Hab. subst b.
    intros H. now rewrite (IH _ _ H).
Qed.

(** A text of class characters has no opening parenthesis, hence no
    match at its head. *)
Lemma match_here_needs_paren s :
  all_chars in_name_class s = true -> match_here s = None.
Proof.
  intros Hs. unfold match_here.
  destruct (lit "ref(" s) as [s1|] eqn:Hlit; [exfalso|reflexivity].
  apply lit_prefix in Hlit. subst s.
  simpl in Hs. discriminate Hs.
Qed.

Lemma first_match_none_on_class s :
  all_chars in_name_class s = true -> first_match s = None.
Proof.
  induction s as [|c s IH]; intros Hs; simpl.
  - reflexivity.
  - rewrite (match_here_needs_paren (String c s) Hs).
    simpl in Hs. apply andb_true_iff in Hs. now apply IH.
Qed.

End RegexFacts.

(** The parser returns either its input or a text of name characters. *)
Lemma parse_ref_cases t :
  parse_ref t = t \/
  all_chars Regex.in_name_class (parse_ref t) = true.
Proof.
  unfold parse_ref.
  destruct (Regex.first_match t) as [r|] eqn:H; [right|now left].
  eapply RegexFacts.first_match_class; eassumption.
Qed.

(** C8.  The reference parser is idempotent and never raises on a
    string: for every text [t] the call [parse_ref(t)] returns a string
    [r], and [parse_ref(r)] returns [r] again; [r] is either [t]
    unchanged or a captured name made only of word characters, spaces,
    underscores and hyphens. *)
Theorem parse_ref_idempotent (t : string) :
  parse_ref_value (VStr t) = Ok (VStr (parse_ref t)) /\
  parse_ref_value (VStr (parse_ref t)) = Ok (VStr (parse_ref t)) /\
  parse_ref (parse_ref t) = parse_ref t /\
  (parse_ref t = t \/
   all_chars Regex.in_name_class (parse_ref t) = true).
Proof.
  assert (Hidem : parse_ref (parse_ref t) = parse_ref t).
  { destruct (parse_ref_cases t) as [Hsame | Hclass].
    - now rewrite Hsame.
    - unfold parse_ref at 1.
      now rewrite (RegexFacts.first_match_none_on_class _ Hclass). }
  repeat split.
  - simpl. now rewrite Hidem.
  - exact Hidem.
  - apply parse_ref_cases.
Qed.

(* ================================================================== *)
(** * Facts about dicts and the monad *)

Section DictFacts.

Lemma dict_mem_find key d :
  dict_mem key d = match dict_find key d with Some _ => true | None => false end.
Proof.
  induction d as [|[k v] d IH]; simpl; [reflexivity|].
  now destruct (String.eqb k key).
Qed.

Lemma dict_find_set key key' v d :
  dict_find key (dict_set key' v d) =
  if String.eqb key' key then Some v else dict_find key d.
Proof.
  induction d as [|[k w] d IH]; simpl.
  - reflexivity.
  - destruct (String.eqb k key') eqn:Hk; simpl.
    + apply String.eqb_eq in Hk. subst k.
      now destruct (String.eqb key' key).
    + destruct (String.eqb k key) eqn:Hk'.
      * apply String.eqb_eq in Hk'. subst key.
        now rewrite String.eqb_sym, Hk.
      * exact IH.
Qed.

End DictFacts.

Section MonadFacts.

Context {A B : Type}.

Lemma bind_lift (r : result A) (k : A -> M B) :
  bind (lift r) k = match r with Ok a => k a | Err e => ([], Err e) end.
Proof.
  destruct r as [a|e]; simpl; [|reflexivity].
  now destruct (k a).
Qed.

Lemma bind_ok_inv (m : M A) (k : A -> M B) log b :
  bind m k = (log, Ok b) ->
  exists l1 a l2, m = (l1, Ok a) /\ k a = (l2, Ok b) /\ log = l1 ++ l2.
Proof.
  destruct m as [l1 [a|e]]; simpl; [|discriminate].
  destruct (k a) as [l2 r] eqn:Hk.
  intros [= <- ->]. now exists l1, a, l2.
Qed.

Lemma bind_ok (m : M A) (k : A -> M B) l1 a l2 r :
  m = (l1, Ok a) -> k a = (l2, r) -> bind m k = (l1 ++ l2, r).
Proof. intros -> Hk. simpl. now rewrite Hk. Qed.

End MonadFacts.

Lemma bind_assoc {A B C} (m : M A) (f : A -> M B) (g : B -> M C) :
  bind (bind m f) g = bind m (fun a => bind (f a) g).
Proof.
  destruct m as [l1 [a|e]]; simpl; [|reflexivity].
  destruct (f a) as [l2 [b|e]]; simpl; [|reflexivity].
  destruct (g b) as [l3 r]. now rewrite app_assoc.
Qed.

Arguments bind : simpl never.

Lemma py_get_dict key default c :
  py_get key default (VDict c) = Ok (dict_get key default c).
Proof. reflexivity. Qed.

(** One [lift]ed call of a sequence, its receiver being a dict. *)
Ltac lift_step := rewrite bind_lift; rewrite ?py_get_dict; cbv beta iota.

Lemma rfor_each_app {S X} (body : S -> X -> result S) xs ys s :
  rfor_each body (xs ++ ys) s =
  (s' <- rfor_each body xs s ;; rfor_each body ys s').
Proof.
  revert s. induction xs as [|x xs IH]; intros s; simpl; [reflexivity|].
  destruct (body s x); simpl; [apply IH | reflexivity].
Qed.

(* ================================================================== *)
(** * Facts about the column normaliser *)

Section ForeignKeyDetection.

Lemma detect_fk_skip column mb test :
  is_relationship_test test = false -> detect_fk column mb test = Ok mb.
Proof.
  destruct test; simpl; try reflexivity.
  intros H. unfold detect_fk. simpl. now rewrite H.
Qed.

(** A well-formed [meta] resolves the table of any relationship to a
    string. *)
Lemma wf_meta_fk_table c to :
  wf_meta c = true ->
  (dict_find "meta" c = None \/ exists m, dict_find "meta" c = Some (VDict m)) /\
  exists table, fk_table (column_meta c) to = VStr table.
Proof.
  unfold wf_meta, fk_table, column_meta, dict_get.
  destruct (dict_find "meta" c) as [[| | | | |m]|]; try discriminate.
  - destruct (dict_find "metabase.fk_ref" m) as [[| | |s| |]|]; try discriminate;
      intros _; split; eauto.
  - intros _. simpl. split; eauto.
Qed.

(** What a relationship test writes when its shape is right. *)
Lemma detect_fk_hit c mb t r to field table :
  dict_find "meta" c = None \/ (exists m, dict_find "meta" c = Some (VDict m)) ->
  dict_find "relationships" t = Some (VDict r) ->
  dict_find "to" r = Some (VStr to) ->
  dict_find "field" r = Some (VStr field) ->
  fk_table (column_meta c) to = VStr table ->
  detect_fk (VDict c) mb (VDict t) = Ok (set_fk (upper table) (upper field) mb).
Proof.
  intros Hmeta Hrel Hto Hfield Htable.
  unfold detect_fk. simpl.
  rewrite dict_mem_find, Hrel. simpl.
  unfold dict_item. rewrite Hrel. simpl.
  unfold fk_table, column_meta in Htable. unfold dict_get at 1.
  destruct Hmeta as [Hm | [m Hm]]; rewrite Hm in *; simpl;
    unfold dict_item; rewrite Hto; simpl.
  - injection Htable as ->. now rewrite Hfield.
  - rewrite Htable. simpl. now rewrite Hfield.
Qed.

(** Conversely, a relationship test that does not raise had that
    shape. *)
Lemma detect_fk_inv c mb test mb' :
  is_relationship_test test = true ->
  detect_fk (VDict c) mb test = Ok mb' ->
  exists t r to field table,
    test = VDict t /\
    dict_find "relationships" t = Some (VDict r) /\
    dict_find "to" r = Some (VStr to) /\
    dict_find "field" r = Some (VStr field) /\
    fk_table (column_meta c) to = VStr table /\
    mb' = set_fk (upper table) (upper field) mb.
Proof.
  destruct test as [| | | | |t]; simpl; try discriminate.
  intros Hmem. unfold detect_fk. simpl. rewrite Hmem.
  unfold dict_item at 1.
  destruct (dict_find "relationships" t) as [rel|] eqn:Hrel; simpl; [|discriminate].
  unfold fk_table, column_meta. unfold dict_get at 1.
  destruct rel as [| | | | |r];
    try (destruct (dict_find "meta" c) as [[| | | | |m]|]; discriminate).
  assert (Hshape : forall m : dict,
    (to <- py_item "to" (VDict r) ;;
     parsed <- parse_ref_value to ;;
     table <- py_upper (dict_get "metabase.fk_ref" parsed m) ;;
     let mb2 := dict_set "fk_target_table" table
                  (dict_set "semantic_type" (VStr "type/FK") mb) in
     field <- py_item "field" (VDict r) ;;
     field_upper <- py_upper field ;;
     Ok (dict_set "fk_target_field" field_upper mb2)) = Ok mb' ->
    exists to field table,
      dict_find "to" r = Some (VStr to) /\
      dict_find "field" r = Some (VStr field) /\
      dict_get "metabase.fk_ref" (VStr (parse_ref to)) m = VStr table /\
      mb' = set_fk (upper table) (upper field) mb).
  { intros m. simpl. unfold dict_item.
    destruct (dict_find "to" r) as [[| | |to| |]|]; simpl; try discriminate.
    destruct (dict_get "metabase.fk_ref" (VStr (parse_ref to)) m)
      as [| | |table| |] eqn:Htable; simpl; try discriminate.
    destruct (dict_find "field" r) as [[| | |field| |]|]; simpl;
      try discriminate.
    intros [= <-]. now exists to, field, table. }
  destruct (dict_find "meta" c) as [[| | | | |m]|] eqn:Hm; try discriminate;
    intros H; apply Hshape in H;
    destruct H as (to & field & table & Hto & Hfield & Htable & ->);
    exists t, r, to, field, table; repeat split; assumption.
Qed.

Lemma detect_fk_wf c mb test :
  wf_meta c = true -> wf_test test = true ->
  exists mb', detect_fk (VDict c) mb test = Ok mb'.
Proof.
  intros Hmeta Htest.
  destruct (is_relationship_test test) eqn:Hrel.
  - destruct test as [| | | | |t]; simpl in *; try discriminate.
    rewrite dict_mem_find in Hrel.
    destruct (dict_find "relationships" t) as [[| | | | |r]|] eqn:Hr;
      try discriminate.
    destruct (dict_find "to" r) as [[| | |to| |]|] eqn:Hto; try discriminate.
    destruct (dict_find "field" r) as [[| | |field| |]|] eqn:Hfield;
      try discriminate.
    destruct (wf_meta_fk_table c to Hmeta) as [Hm [table Htable]].
    eexists. eapply detect_fk_hit; eassumption.
  - exists mb. now apply detect_fk_skip.
Qed.

Lemma fk_loop_skip column tests mb :
  existsb is_relationship_test tests = false ->
  rfor_each (detect_fk column) tests mb = Ok mb.
Proof.
  induction tests as [|t tests IH]; simpl; [reflexivity|].
  intros H. apply orb_false_iff in H. destruct H as [Ht Hrest].
  rewrite (detect_fk_skip _ _ _ Ht). simpl. now apply IH.
Qed.

Lemma fk_loop_wf c tests : forall mb,
  wf_meta c = true -> forallb wf_test tests = true ->
  exists mb', rfor_each (detect_fk (VDict c)) tests mb = Ok mb'.
Proof.
  induction tests as [|t tests IH]; intros mb Hmeta Hall; simpl.
  - now exists mb.
  - simpl in Hall. apply andb_true_iff in Hall. destruct Hall as [Ht Hrest].
    destruct (detect_fk_wf c mb t Hmeta Ht) as [mb1 H1].
    rewrite H1. simpl. now apply IH.
Qed.

(** The loop ends in the state the last relationship test leaves. *)
Lemma fk_loop_last column pre test post mb mb' :
  existsb is_relationship_test post = false ->
  rfor_each (detect_fk column) (pre ++ test :: post) mb = Ok mb' ->
  exists mbp,
    rfor_each (detect_fk column) pre mb = Ok mbp /\
    detect_fk column mbp test = Ok mb'.
Proof.
  intros Hpost. rewrite rfor_each_app.
  destruct (rfor_each (detect_fk column) pre mb) as [mbp|] eqn:Hpre; simpl;
    [|discriminate].
  destruct (detect_fk column mbp test) as [mbt|] eqn:Ht; simpl; [|discriminate].
  rewrite (fk_loop_skip _ _ _ Hpost). intros [= <-]. now exists mbp.
Qed.

Lemma existsb_last_split {A} (p : A -> bool) l :
  existsb p l = true ->
  exists pre x post,
    l = pre ++ x :: post /\ p x = true /\ existsb p post = false.
Proof.
  induction l as [|a l IH]; simpl; [discriminate|].
  destruct (existsb p l) eqn:Hl.
  - intros _. destruct (IH eq_refl) as (pre & x & post & -> & Hx & Hpost).
    now exists (a :: pre), x, post.
  - rewrite orb_false_r. intros Ha. now exists [], a, l.
Qed.

End ForeignKeyDetection.

Section ColumnPhases.

Lemma read_column_not_dict column :
  is_dict column = false -> read_column column = ([], Err AttributeError).
Proof. destruct column; simpl; try reflexivity; discriminate. Qed.

Lemma read_column_dict c :
  read_column (VDict c) =
  match detected c with
  | Err e => ([], Err e)
  | Ok mb1 =>
      if dict_mem "meta" c then
        mb3 <~ annotate (dict_get "meta" (VDict []) c) mb1 ;; ret (VDict mb3)
      else ([], Ok (VDict mb1))
  end.
Proof.
  unfold read_column, detected. lift_step. lift_step.
  destruct (py_upper (dict_get "name" (VStr "") c)) as [name_upper|];
    [|reflexivity].
  do 3 lift_step. simpl rbind.
  destruct (py_iter (dict_get "tests" (VList []) c)) as [items|];
    [|reflexivity].
  lift_step. simpl rbind.
  destruct (rfor_each (detect_fk (VDict c)) items _) as [mb1|];
    [|reflexivity].
  lift_step. simpl py_contains. cbv beta iota.
  destruct (dict_mem "meta" c); [|reflexivity].
  lift_step. unfold annotate. rewrite bind_assoc. reflexivity.
Qed.

Lemma copy_meta_field_dict m mb field :
  copy_meta_field (VDict m) mb field = Ok (copy_field m field mb).
Proof.
  unfold copy_meta_field, copy_field, py_contains, py_item, dict_item.
  rewrite dict_mem_find.
  now destruct (dict_find ("metabase." ++ field) m).
Qed.

Lemma apply_special_type_dict m mb :
  apply_special_type (VDict m) mb = (deprecation_log m, Ok (special m mb)).
Proof.
  unfold apply_special_type, special, deprecation_log.
  rewrite bind_lift. unfold py_contains, py_item, dict_item.
  rewrite (dict_mem_find "metabase.special_type").
  destruct (dict_find "metabase.special_type" m) as [v|]; [|reflexivity].
  destruct (dict_mem "semantic_type" mb); reflexivity.
Qed.

Lemma annotate_dict m mb :
  annotate (VDict m) mb = (deprecation_log m, Ok (annotated m mb)).
Proof.
  unfold annotate, annotated. simpl rfor_each.
  rewrite copy_meta_field_dict. simpl rbind.
  rewrite copy_meta_field_dict. simpl rbind.
  rewrite bind_lift. apply apply_special_type_dict.
Qed.

(** A [meta] that is not a mapping either raises or changes nothing. *)
Lemma copy_meta_field_other meta mb field mb' :
  is_dict meta = false ->
  copy_meta_field meta mb field = Ok mb' -> mb' = mb.
Proof.
  unfold copy_meta_field.
  destruct meta; simpl; try discriminate; intros _.
  - destruct (str_contains _ _); simpl; [discriminate | now intros [= <-]].
  - destruct (existsb _ _); simpl; [discriminate | now intros [= <-]].
Qed.

Lemma annotate_other meta mb log mb' :
  is_dict meta = false ->
  annotate meta mb = (log, Ok mb') -> mb' = mb.
Proof.
  intros Hmeta. unfold annotate. rewrite bind_lift. simpl rfor_each.
  destruct (copy_meta_field meta mb "semantic_type") as [mb1|] eqn:H1; simpl;
    [|discriminate].
  apply copy_meta_field_other in H1; [subst mb1 | assumption].
  destruct (copy_meta_field meta mb "visibility_type") as [mb2|] eqn:H2; simpl;
    [|discriminate].
  apply copy_meta_field_other in H2; [subst mb2 | assumption].
  unfold apply_special_type. rewrite bind_lift.
  destruct (py_contains "metabase.special_type" meta) as [[|]|]; simpl;
    try discriminate; [|now intros [= _ <-]].
  destruct (dict_mem "semantic_type" mb); simpl; [now intros [= _ <-]|].
  destruct meta; simpl; discriminate.
Qed.

(** Every successful [read_column] went through the two halves. *)
Lemma read_column_ok_inv column log r :
  read_column column = (log, Ok r) ->
  exists c mb1,
    column = VDict c /\
    detected c = Ok mb1 /\
    r = VDict (annotated (column_meta c) mb1) /\
    (forall m, dict_find "meta" c = Some (VDict m) -> log = deprecation_log m).
Proof.
  destruct column as [| | | | |c]; try (simpl; discriminate).
  rewrite read_column_dict.
  destruct (detected c) as [mb1|] eqn:Hdet; [|discriminate].
  intros H. exists c, mb1. split; [reflexivity|]. split; [assumption|].
  unfold column_meta. rewrite dict_mem_find in H. unfold dict_get in H.
  destruct (dict_find "meta" c) as [meta|].
  - destruct (is_dict meta) eqn:Hd.
    + destruct meta; try discriminate. rewrite annotate_dict in H.
      unfold bind in H. simpl in H. rewrite app_nil_r in H.
      injection H as <- <-.
      split; [reflexivity|]. now intros m [= <-].
    + apply bind_ok_inv in H. destruct H as (l1 & mb3 & l2 & Ha & Hret & ->).
      injection Hret as <- <-.
      apply annotate_other in Ha; [subst mb3 | assumption].
      split; [|intros m [= ->]; discriminate].
      now destruct meta.
  - injection H as <- <-. split; [reflexivity | discriminate].
Qed.

(** A well-formed column declaration is normalised without raising. *)
Lemma detected_wf c :
  wf_column (VDict c) = true -> exists mb1, detected c = Ok mb1.
Proof.
  simpl. rewrite !andb_true_iff. intros [[Hname Htests] Hmeta].
  unfold detected, dict_get.
  unfold wf_name in Hname. unfold wf_tests in Htests.
  destruct (dict_find "name" c) as [[| | |name| |]|]; try discriminate; simpl;
    (destruct (dict_find "tests" c) as [[| | | |tests|]|]; try discriminate;
     simpl; [now apply fk_loop_wf | eauto]).
Qed.

Lemma read_column_wf c :
  wf_column (VDict c) = true ->
  exists mb1,
    detected c = Ok mb1 /\
    read_column (VDict c) =
      (deprecation_log (column_meta c),
       Ok (VDict (annotated (column_meta c) mb1))).
Proof.
  intros Hwf. destruct (detected_wf c Hwf) as [mb1 Hd].
  exists mb1. split; [assumption|].
  rewrite read_column_dict, Hd.
  simpl in Hwf. rewrite !andb_true_iff in Hwf. destruct Hwf as [_ Hmeta].
  unfold wf_meta in Hmeta. unfold column_meta, dict_get.
  rewrite dict_mem_find.
  destruct (dict_find "meta" c) as [[| | | | |m]|]; try discriminate.
  - rewrite annotate_dict. unfold bind. simpl. now rewrite app_nil_r.
  - reflexivity.
Qed.

End ColumnPhases.

Section ColumnKeys.

Lemma set_fk_find key table field mb :
  dict_find key (set_fk table field mb) =
  if String.eqb "fk_target_field" key then Some (VStr field)
  else if String.eqb "fk_target_table" key then Some (VStr table)
  else if String.eqb "semantic_type" key then Some (VStr "type/FK")
  else dict_find key mb.
Proof. unfold set_fk. now rewrite !dict_find_set. Qed.

Lemma copy_field_find key m field mb :
  dict_find key (copy_field m field mb) =
  if String.eqb field key then
    match dict_find ("metabase." ++ field) m with
    | Some v => Some v
    | None => dict_find key mb
    end
  else dict_find key mb.
Proof.
  unfold copy_field.
  destruct (dict_find ("metabase." ++ field) m).
  - apply dict_find_set.
  - now destruct (String.eqb field key).
Qed.

Lemma special_find key m mb :
  dict_find key (special m mb) =
  if String.eqb "semantic_type" key then
    match dict_find "semantic_type" mb with
    | Some v => Some v
    | None => dict_find "metabase.special_type" m
    end
  else dict_find key mb.
Proof.
  unfold special. rewrite dict_mem_find.
  destruct (String.eqb "semantic_type" key) eqn:Hk.
  - apply String.eqb_eq in Hk. subst key.
    destruct (dict_find "metabase.special_type" m) as [v|].
    + destruct (dict_find "semantic_type" mb) eqn:Hs; [assumption|].
      now rewrite dict_find_set.
    + now destruct (dict_find "semantic_type" mb).
  - destruct (dict_find "metabase.special_type" m) as [v|]; [|reflexivity].
    destruct (dict_find "semantic_type" mb); [reflexivity|].
    now rewrite dict_find_set, Hk.
Qed.

(** The semantic type after the annotations: the current annotation,
    else what detection left, else the deprecated annotation. *)
Lemma annotated_semantic_type m mb :
  dict_find "semantic_type" (annotated m mb) =
  match dict_find "metabase.semantic_type" m with
  | Some v => Some v
  | None =>
      match dict_find "semantic_type" mb with
      | Some v => Some v
      | None => dict_find "metabase.special_type" m
      end
  end.
Proof.
  unfold annotated. rewrite special_find, !copy_field_find. simpl.
  now destruct (dict_find "metabase.semantic_type" m).
Qed.

Lemma annotated_visibility_type m mb :
  dict_find "visibility_type" (annotated m mb) =
  match dict_find "metabase.visibility_type" m with
  | Some v => Some v
  | None => dict_find "visibility_type" mb
  end.
Proof.
  unfold annotated. now rewrite special_find, !copy_field_find.
Qed.

Lemma annotated_other key m mb :
  String.eqb "semantic_type" key = false ->
  String.eqb "visibility_type" key = false ->
  dict_find key (annotated m mb) = dict_find key mb.
Proof.
  intros Hs Hv. unfold annotated.
  now rewrite special_find, !copy_field_find, Hs, Hv.
Qed.

(** The loop over the tests only writes the three foreign-key keys. *)
Lemma detect_fk_other column key mb test mb' :
  is_fk_key key = false ->
  detect_fk column mb test = Ok mb' ->
  dict_find key mb' = dict_find key mb.
Proof.
  intros Hkey. unfold is_fk_key in Hkey.
  apply orb_false_iff in Hkey. destruct Hkey as [Hkey Hf].
  apply orb_false_iff in Hkey. destruct Hkey as [Hs Ht].
  destruct (is_relationship_test test) eqn:Hrel.
  - destruct column as [| | | | |c];
      try (destruct test; try discriminate; unfold detect_fk; simpl;
           simpl in Hrel; rewrite Hrel;
           destruct (dict_item "relationships" _); discriminate).
    intros H. apply detect_fk_inv in H; [|assumption].
    destruct H as (t & r & to & field & table & _ & _ & _ & _ & _ & ->).
    now rewrite set_fk_find, Hf, Ht, Hs.
  - rewrite detect_fk_skip by assumption. now intros [= <-].
Qed.

Lemma fk_loop_other column key tests : forall mb mb',
  is_fk_key key = false ->
  rfor_each (detect_fk column) tests mb = Ok mb' ->
  dict_find key mb' = dict_find key mb.
Proof.
  induction tests as [|t tests IH]; intros mb mb' Hkey; simpl.
  - now intros [= <-].
  - destruct (detect_fk column mb t) as [mb1|] eqn:H1; simpl; [|discriminate].
    intros H. rewrite (IH _ _ Hkey H).
    eapply detect_fk_other; eassumption.
Qed.

(** Iterating the keys of a dict or the characters of a string meets
    no mapping. *)
Lemma no_relationship_among_strings {A} (f : A -> string) l :
  existsb is_relationship_test (map (fun a => VStr (f a)) l) = false.
Proof. induction l as [|a l IH]; simpl; [reflexivity | exact IH]. Qed.

(** The first half of a successful [read_column], taken apart. *)
Lemma detected_inv c mb1 :
  detected c = Ok mb1 ->
  exists name items,
    dict_get "name" (VStr "") c = VStr name /\
    py_iter (dict_get "tests" (VList []) c) = Ok items /\
    existsb is_relationship_test items = has_relationship_test (VDict c) /\
    rfor_each (detect_fk (VDict c)) items
      [("name", VStr (upper name));
       ("description", dict_get "description" VNone c)] = Ok mb1.
Proof.
  unfold detected.
  destruct (dict_get "name" (VStr "") c) as [| | |name| |]; simpl;
    try discriminate.
  unfold has_relationship_test, dict_get.
  destruct (dict_find "tests" c) as [[| | |s|tests|d]|]; simpl;
    try discriminate; intros H; exists name; eexists;
    (split; [reflexivity|]); (split; [reflexivity|]);
    (split; [|exact H]).
  - unfold chars. apply (no_relationship_among_strings (fun a => String a "")).
  - reflexivity.
  - apply (no_relationship_among_strings fst).
  - reflexivity.
Qed.

End ColumnKeys.

(* ================================================================== *)
(** * Properties of the column normaliser *)

(** What detection leaves in a successful column: nothing without a
    relationship test, the three keys of the last one otherwise. *)
Lemma detected_cases c mb1 :
  detected c = Ok mb1 ->
  (has_relationship_test (VDict c) = false /\
   exists name, dict_get "name" (VStr "") c = VStr name /\
     mb1 = [("name", VStr (upper name));
            ("description", dict_get "description" VNone c)]) \/
  (has_relationship_test (VDict c) = true /\
   exists table field mbp, mb1 = set_fk table field mbp).
Proof.
  intros H. apply detected_inv in H.
  destruct H as (name & items & Hname & _ & Hex & Hloop).
  destruct (has_relationship_test (VDict c)); [right | left]; split;
    try reflexivity.
  - apply existsb_last_split in Hex.
    destruct Hex as (pre & t & post & -> & Ht & Hpost).
    apply fk_loop_last in Hloop; [|assumption].
    destruct Hloop as (mbp & _ & Hdet).
    apply detect_fk_inv in Hdet; [|assumption].
    destruct Hdet as (_ & _ & _ & field & table & _ & _ & _ & _ & _ & ->).
    now exists (upper table), (upper field), mbp.
  - rewrite fk_loop_skip in Hloop by assumption.
    injection Hloop as <-. now exists name.
Qed.

(** C2.  On every column declaration that [read_column] normalises
    without raising, [fk_target_table] and [fk_target_field] are both
    set (to strings) or both absent, and they are set exactly when the
    tests sequence contains a relationship test; without one,
    [semantic_type] is absent too unless the annotations supply it
    (under [metabase.semantic_type] or the deprecated
    [metabase.special_type]). *)
Theorem read_column_fk_both_or_neither (column : value) log r :
  read_column column = (log, Ok r) ->
  exists c mb,
    column = VDict c /\ r = VDict mb /\
    dict_mem "fk_target_table" mb = has_relationship_test column /\
    dict_mem "fk_target_field" mb = has_relationship_test column /\
    (has_relationship_test column = true ->
       exists table field,
         dict_find "fk_target_table" mb = Some (VStr table) /\
         dict_find "fk_target_field" mb = Some (VStr field)) /\
    (has_relationship_test column = false ->
       dict_find "fk_target_table" mb = None /\
       dict_find "fk_target_field" mb = None /\
       dict_find "semantic_type" mb = semantic_annotation (column_meta c)).
Proof.
  intros H. apply read_column_ok_inv in H.
  destruct H as (c & mb1 & -> & Hdet & -> & _).
  exists c, (annotated (column_meta c) mb1).
  split; [reflexivity|]. split; [reflexivity|].
  rewrite !dict_mem_find, annotated_semantic_type,
    !annotated_other by reflexivity.
  apply detected_cases in Hdet.
  destruct Hdet as [[Hrel (name & _ & ->)] | [Hrel (table & field & mbp & ->)]];
    rewrite Hrel, ?set_fk_find; simpl.
  - repeat split; discriminate.
  - repeat split; try discriminate. intros _. now exists table, field.
Qed.

Example read_customer_id_column :
  read_column customer_id_column =
  ([], Ok (VDict [("name", VStr "CUSTOMER_ID");
                  ("description", VNone);
                  ("semantic_type", VStr "type/FK");
                  ("fk_target_table", VStr "ORDERS");
                  ("fk_target_field", VStr "CUSTOMER_ID")])).
Proof. reflexivity. Qed.

Lemma read_column_fk_both_or_neither_witness :
  exists c mb,
    customer_id_column = VDict c /\
    VDict [("name", VStr "CUSTOMER_ID");
           ("description", VNone);
           ("semantic_type", VStr "type/FK");
           ("fk_target_table", VStr "ORDERS");
           ("fk_target_field", VStr "CUSTOMER_ID")] = VDict mb /\
    dict_mem "fk_target_table" mb = has_relationship_test customer_id_column /\
    dict_mem "fk_target_field" mb = has_relationship_test customer_id_column /\
    (has_relationship_test customer_id_column = true ->
       exists table field,
         dict_find "fk_target_table" mb = Some (VStr table) /\
         dict_find "fk_target_field" mb = Some (VStr field)) /\
    (has_relationship_test customer_id_column = false ->
       dict_find "fk_target_table" mb = None /\
       dict_find "fk_target_field" mb = None /\
       dict_find "semantic_type" mb = semantic_annotation (column_meta c)).
Proof.
  apply (read_column_fk_both_or_neither customer_id_column []).
  reflexivity.
Defined.

(** The last relationship test of the sequence decides the three
    foreign-key keys of a column that is normalised without raising. *)
Lemma detected_last_relationship c pre t post r to field mb1 :
  dict_find "tests" c = Some (VList (pre ++ VDict t :: post)) ->
  existsb is_relationship_test post = false ->
  dict_find "relationships" t = Some (VDict r) ->
  dict_find "to" r = Some (VStr to) ->
  dict_find "field" r = Some (VStr field) ->
  detected c = Ok mb1 ->
  exists table name mbp,
    fk_table (column_meta c) to = VStr table /\
    dict_get "name" (VStr "") c = VStr name /\
    dict_find "name" mbp = Some (VStr (upper name)) /\
    mb1 = set_fk (upper table) (upper field) mbp.
Proof.
  intros Htests Hpost Hrel Hto Hfield Hdet.
  apply detected_inv in Hdet.
  destruct Hdet as (name & items & Hname & Hiter & _ & Hloop).
  unfold dict_get in Hiter. rewrite Htests in Hiter.
  injection Hiter as <-.
  apply fk_loop_last in Hloop; [|assumption].
  destruct Hloop as (mbp & Hpre & Hdet).
  apply detect_fk_inv in Hdet; [|simpl; now rewrite dict_mem_find, Hrel].
  destruct Hdet as (t' & r' & to' & field' & table & [= <-] & Hrel' & Hto'
                    & Hfield' & Htable & ->).
  rewrite Hrel in Hrel'. injection Hrel' as <-.
  rewrite Hto in Hto'. injection Hto' as <-.
  rewrite Hfield in Hfield'. injection Hfield' as <-.
  exists table, name, mbp. repeat split; try assumption.
  now rewrite (fk_loop_other _ "name" _ _ _ eq_refl Hpre).
Qed.

(** C1.  A well-formed column declaration whose relationship test (the
    one after which the tests sequence holds no other) has strings
    under [to] and [field], and whose annotations give no
    [metabase.fk_ref], is normalised without raising to a column with
    the uppercased name, [semantic_type] equal to ["type/FK"] unless the
    annotation [metabase.semantic_type] replaces it, [fk_target_table]
    equal to the uppercased [parse_ref] of [to], and [fk_target_field]
    equal to the uppercased [field]. *)
Theorem read_column_relationship c pre t post r to field :
  wf_column (VDict c) = true ->
  dict_find "tests" c = Some (VList (pre ++ VDict t :: post)) ->
  existsb is_relationship_test post = false ->
  dict_find "relationships" t = Some (VDict r) ->
  dict_find "to" r = Some (VStr to) ->
  dict_find "field" r = Some (VStr field) ->
  dict_mem "metabase.fk_ref" (column_meta c) = false ->
  exists log mb name,
    read_column (VDict c) = (log, Ok (VDict mb)) /\
    dict_get "name" (VStr "") c = VStr name /\
    dict_find "name" mb = Some (VStr (upper name)) /\
    dict_find "semantic_type" mb =
      Some (dict_get "metabase.semantic_type" (VStr "type/FK") (column_meta c)) /\
    dict_find "fk_target_table" mb = Some (VStr (upper (parse_ref to))) /\
    dict_find "fk_target_field" mb = Some (VStr (upper field)).
Proof.
  intros Hwf Htests Hpost Hrel Hto Hfield Hnoref.
  destruct (read_column_wf c Hwf) as (mb1 & Hdet & Hread).
  destruct (detected_last_relationship _ _ _ _ _ _ _ _
              Htests Hpost Hrel Hto Hfield Hdet)
    as (table & name & mbp & Htable & Hname & Hmbp & ->).
  unfold fk_table, dict_get in Htable. rewrite dict_mem_find in Hnoref.
  destruct (dict_find "metabase.fk_ref" (column_meta c)); [discriminate|].
  injection Htable as <-.
  eexists _, _, name. split; [exact Hread|]. split; [assumption|].
  rewrite annotated_semantic_type, !annotated_other by reflexivity.
  rewrite !set_fk_find. simpl. unfold dict_get.
  repeat split; try assumption.
  now destruct (dict_find "metabase.semantic_type" (column_meta c)).
Qed.

Lemma read_column_relationship_witness :
  exists log mb name,
    read_column customer_id_column = (log, Ok (VDict mb)) /\
    VStr "customer_id" = VStr name /\
    dict_find "name" mb = Some (VStr (upper name)) /\
    dict_find "semantic_type" mb = Some (VStr "type/FK") /\
    dict_find "fk_target_table" mb = Some (VStr "ORDERS") /\
    dict_find "fk_target_field" mb = Some (VStr "CUSTOMER_ID").
Proof.
  apply (read_column_relationship
           [("name", VStr "customer_id");
            ("tests", VList [VStr "not_null";
                             relationships_test "ref('orders')" "customer_id"])]
           [VStr "not_null"]
           [("relationships",
             VDict [("to", VStr "ref('orders')"); ("field", VStr "customer_id")])]
           []
           [("to", VStr "ref('orders')"); ("field", VStr "customer_id")]
           "ref('orders')" "customer_id"); reflexivity.
Defined.

(** C3.  For a column whose [meta] is a mapping [m]: a well-formed
    declaration is normalised without raising, and whenever the column
    is normalised, an annotation [metabase.semantic_type] or
    [metabase.visibility_type] is the value of the field whatever
    detection wrote; without [metabase.semantic_type], the semantic type
    is the detected ["type/FK"] when there is a relationship test and
    the deprecated [metabase.special_type] (if any) only otherwise; and
    the log is exactly one deprecation warning when
    [metabase.special_type] is present, empty when it is not. *)
Theorem read_column_annotation_precedence c m :
  dict_find "meta" c = Some (VDict m) ->
  (wf_column (VDict c) = true ->
     exists log mb, read_column (VDict c) = (log, Ok (VDict mb))) /\
  (forall log r, read_column (VDict c) = (log, Ok r) ->
     exists mb, r = VDict mb /\
       (forall v, dict_find "metabase.semantic_type" m = Some v ->
          dict_find "semantic_type" mb = Some v) /\
       (forall v, dict_find "metabase.visibility_type" m = Some v ->
          dict_find "visibility_type" mb = Some v) /\
       (dict_find "metabase.semantic_type" m = None ->
          dict_find "semantic_type" mb =
            if has_relationship_test (VDict c) then Some (VStr "type/FK")
            else dict_find "metabase.special_type" m) /\
       log = if dict_mem "metabase.special_type" m
             then [LogRecord WARNING deprecation_message []] else []).
Proof.
  intros Hmeta. split.
  - intros Hwf. destruct (read_column_wf c Hwf) as (mb1 & _ & Hread). eauto.
  - intros log r H. apply read_column_ok_inv in H.
    destruct H as (c' & mb1 & [= <-] & Hdet & -> & Hlog).
    assert (Hm : column_meta c = m) by (unfold column_meta; now rewrite Hmeta).
    rewrite Hm. eexists. split; [reflexivity|].
    rewrite annotated_semantic_type, annotated_visibility_type.
    repeat split.
    + now intros v ->.
    + now intros v ->.
    + intros ->. apply detected_cases in Hdet.
      destruct Hdet as [[Hrel (name & _ & ->)]
                       | [Hrel (table & field & mbp & ->)]]; rewrite Hrel.
      * reflexivity.
      * now rewrite set_fk_find.
    + now apply Hlog.
Qed.

Lemma read_column_annotation_precedence_witness :
  dict_find "meta" deprecated_fk_column = Some (VDict deprecated_meta) /\
  wf_column (VDict deprecated_fk_column) = true /\
  exists log mb,
    read_column (VDict deprecated_fk_column) = (log, Ok (VDict mb)) /\
    dict_find "visibility_type" mb = Some (VStr "hidden") /\
    dict_find "semantic_type" mb = Some (VStr "type/FK") /\
    log = [LogRecord WARNING deprecation_message []].
Proof.
  split; [reflexivity|]. split; [reflexivity|].
  destruct (read_column_annotation_precedence
              deprecated_fk_column deprecated_meta eq_refl) as [Hret Hprops].
  destruct (Hret eq_refl) as (log & mb & Hread).
  destruct (Hprops _ _ Hread) as (mb' & Heq & _ & Hvis & Hsem & Hlog).
  injection Heq as <-.
  exists log, mb. split; [exact Hread|].
  split; [apply Hvis; reflexivity|].
  split; [apply Hsem; reflexivity | exact Hlog].
Defined.

Example read_deprecated_fk_column :
  read_column (VDict deprecated_fk_column) =
  ([LogRecord WARNING deprecation_message []],
   Ok (VDict [("name", VStr "CUSTOMER_ID");
              ("description", VNone);
              ("semantic_type", VStr "type/FK");
              ("fk_target_table", VStr "ORDERS");
              ("fk_target_field", VStr "CUSTOMER_ID");
              ("visibility_type", VStr "hidden")])).
Proof. reflexivity. Qed.

(** The scenario of the deprecated annotation alone. *)
Example read_special_type_only :
  read_column (VDict [("name", VStr "status");
                      ("meta", VDict [("metabase.special_type",
                                       VStr "type/Category")])]) =
  ([LogRecord WARNING deprecation_message []],
   Ok (VDict [("name", VStr "STATUS");
              ("description", VNone);
              ("semantic_type", VStr "type/Category")])).
Proof. reflexivity. Qed.

Example read_two_relationships_column :
  read_column (VDict two_relationships_column) =
  ([], Ok (VDict [("name", VStr "CUSTOMER_ID");
                  ("description", VNone);
                  ("semantic_type", VStr "type/FK");
                  ("fk_target_table", VStr "PEOPLE");
                  ("fk_target_field", VStr "ID")])).
Proof. reflexivity. Qed.

(** C4, as stated, fails: the first relationship test of a sequence
    (no relationship test before it) does not decide the foreign-key
    target when another one follows. *)
Lemma first_relationship_does_not_decide :
  ~ (forall c pre t post r to field log mb,
       dict_find "tests" c = Some (VList (pre ++ VDict t :: post)) ->
       existsb is_relationship_test pre = false ->
       dict_find "relationships" t = Some (VDict r) ->
       dict_find "to" r = Some (VStr to) ->
       dict_find "field" r = Some (VStr field) ->
       read_column (VDict c) = (log, Ok (VDict mb)) ->
       exists table,
         fk_table (column_meta c) to = VStr table /\
         dict_find "fk_target_table" mb = Some (VStr (upper table)) /\
         dict_find "fk_target_field" mb = Some (VStr (upper field))).
Proof.
  intros H.
  destruct (H two_relationships_column []
              [("relationships",
                VDict [("to", VStr "ref('orders')");
                       ("field", VStr "customer_id")])]
              [relationships_test "ref('people')" "id"]
              _ _ _ _ _
              eq_refl eq_refl eq_refl eq_refl eq_refl
              read_two_relationships_column)
    as (table & _ & _ & Hfield).
  discriminate Hfield.
Qed.

(** C4, amended.  When the tests sequence holds several relationship
    tests, the last one decides: for a column whose last relationship
    test has strings under [to] and [field], a well-formed declaration
    is normalised without raising, and whenever the column is
    normalised its [fk_target_table] is the uppercased target of that
    test (the [metabase.fk_ref] override, else the parsed [to]), its
    [fk_target_field] the uppercased [field] of that test, and its
    [semantic_type] is ["type/FK"] unless [metabase.semantic_type]
    replaces it. *)
Theorem read_column_last_relationship_decides c pre t post r to field :
  dict_find "tests" c = Some (VList (pre ++ VDict t :: post)) ->
  existsb is_relationship_test post = false ->
  dict_find "relationships" t = Some (VDict r) ->
  dict_find "to" r = Some (VStr to) ->
  dict_find "field" r = Some (VStr field) ->
  (wf_column (VDict c) = true ->
     exists log mb, read_column (VDict c) = (log, Ok (VDict mb))) /\
  (forall log mb, read_column (VDict c) = (log, Ok (VDict mb)) ->
     exists table,
       fk_table (column_meta c) to = VStr table /\
       dict_find "fk_target_table" mb = Some (VStr (upper table)) /\
       dict_find "fk_target_field" mb = Some (VStr (upper field)) /\
       dict_find "semantic_type" mb =
         Some (dict_get "metabase.semantic_type" (VStr "type/FK")
                 (column_meta c))).
Proof.
  intros Htests Hpost Hrel Hto Hfield. split.
  - intros Hwf. destruct (read_column_wf c Hwf) as (mb1 & _ & Hread). eauto.
  - intros log mb H. apply read_column_ok_inv in H.
    destruct H as (c' & mb1 & [= <-] & Hdet & [= ->] & _).
    destruct (detected_last_relationship _ _ _ _ _ _ _ _
                Htests Hpost Hrel Hto Hfield Hdet)
      as (table & name & mbp & Htable & _ & _ & ->).
    exists table. split; [assumption|].
    rewrite annotated_semantic_type, !annotated_other by reflexivity.
    rewrite !set_fk_find. simpl. unfold dict_get.
    repeat split.
    now destruct (dict_find "metabase.semantic_type" (column_meta c)).
Qed.

Lemma read_column_last_relationship_decides_witness :
  wf_column (VDict two_relationships_column) = true /\
  exists log mb,
    read_column (VDict two_relationships_column) = (log, Ok (VDict mb)) /\
    dict_find "fk_target_table" mb = Some (VStr "PEOPLE") /\
    dict_find "fk_target_field" mb = Some (VStr "ID") /\
    dict_find "semantic_type" mb = Some (VStr "type/FK").
Proof.
  split; [reflexivity|].
  destruct (read_column_last_relationship_decides
              two_relationships_column
              [relationships_test "ref('orders')" "customer_id"]
              [("relationships",
                VDict [("to", VStr "ref('people')"); ("field", VStr "id")])]
              []
              [("to", VStr "ref('people')"); ("field", VStr "id")]
              "ref('people')" "id"
              eq_refl eq_refl eq_refl eq_refl eq_refl) as [Hret Hprops].
  destruct (Hret eq_refl) as (log & mb & Hread).
  destruct (Hprops _ _ Hread) as (table & Htable & Htab & Hfield & Hsem).
  injection Htable as <-.
  exists log, mb. repeat split; assumption.
Defined.

(** A relationship whose mapping has no [to] raises [KeyError] once the
    receiver of the [fk_ref] lookup is a mapping: the default argument
    is evaluated whether or not [fk_ref] is present. *)
Lemma detect_fk_missing_to c mb t r :
  dict_find "meta" c = None \/ (exists m, dict_find "meta" c = Some (VDict m)) ->
  dict_find "relationships" t = Some (VDict r) ->
  dict_find "to" r = None ->
  detect_fk (VDict c) mb (VDict t) = Err (KeyError "to").
Proof.
  intros Hmeta Hrel Hto. unfold detect_fk. simpl.
  rewrite dict_mem_find, Hrel. simpl.
  unfold dict_item. rewrite Hrel. simpl. unfold dict_get.
  destruct Hmeta as [Hm | [m Hm]]; rewrite Hm; simpl;
    unfold dict_item; now rewrite Hto.
Qed.

(** C9.  A column whose tests sequence contains a relationship test
    with no [to] in its [relationships] mapping is never normalised;
    and when the rest of the declaration is well-formed (name, the
    tests before that one, and a [meta] that may well hold a
    [metabase.fk_ref] override) [read_column] raises [KeyError] for
    [to]. *)
Theorem read_column_missing_to c pre t post r :
  dict_find "tests" c = Some (VList (pre ++ VDict t :: post)) ->
  dict_find "relationships" t = Some (VDict r) ->
  dict_find "to" r = None ->
  (forall log res, read_column (VDict c) <> (log, Ok res)) /\
  (wf_name c = true -> wf_meta c = true -> forallb wf_test pre = true ->
     read_column (VDict c) = ([], Err (KeyError "to"))).
Proof.
  intros Htests Hrel Hto. split.
  - intros log res H. apply read_column_ok_inv in H.
    destruct H as (c' & mb1 & [= <-] & Hdet & _).
    apply detected_inv in Hdet.
    destruct Hdet as (name & items & _ & Hiter & _ & Hloop).
    unfold dict_get in Hiter. rewrite Htests in Hiter. injection Hiter as <-.
    rewrite rfor_each_app in Hloop.
    destruct (rfor_each (detect_fk (VDict c)) pre _) as [mbp|]; simpl in Hloop;
      [|discriminate].
    destruct (detect_fk (VDict c) mbp (VDict t)) as [mbt|] eqn:Hdet;
      simpl in Hloop; [|discriminate].
    apply detect_fk_inv in Hdet; [|simpl; now rewrite dict_mem_find, Hrel].
    destruct Hdet as (t' & r' & to & _ & _ & [= <-] & Hrel' & Hto' & _).
    rewrite Hrel in Hrel'. injection Hrel' as <-. congruence.
  - intros Hname Hmeta Hpre.
    rewrite read_column_dict. unfold detected, dict_get.
    unfold wf_name in Hname.
    rewrite Htests. simpl py_iter.
    assert (Hloop : forall mb,
      rfor_each (detect_fk (VDict c)) (pre ++ VDict t :: post) mb =
      Err (KeyError "to")).
    { intros mb. rewrite rfor_each_app.
      destruct (fk_loop_wf c pre mb Hmeta Hpre) as [mbp ->]. simpl.
      destruct (wf_meta_fk_table c "" Hmeta) as [Hm _].
      now rewrite (detect_fk_missing_to c mbp t r Hm Hrel Hto). }
    destruct (dict_find "name" c) as [[| | |name| |]|]; try discriminate;
      simpl; now rewrite Hloop.
Qed.

Lemma read_column_missing_to_witness :
  (forall log res, read_column (VDict missing_to_column) <> (log, Ok res)) /\
  read_column (VDict missing_to_column) = ([], Err (KeyError "to")).
Proof.
  destruct (read_column_missing_to
              missing_to_column [VStr "not_null"]
              [("relationships", VDict [("field", VStr "customer_id")])]
              [] [("field", VStr "customer_id")]
              eq_refl eq_refl eq_refl) as [Hnever Hkey].
  split; [exact Hnever|].
  apply Hkey; reflexivity.
Defined.

(* ================================================================== *)
(** * Facts about loops in the reader's monad *)

Section LoopFacts.

Context {S X : Type}.
Variable body : S -> X -> M S.

Lemma bind_ret_l {A B} (a : A) (k : A -> M B) : bind (ret a) k = k a.
Proof. unfold bind, ret. now destruct (k a). Qed.

Lemma outcome_bind {A B} (m : M A) (k : A -> M B) :
  outcome (bind m k) =
  match outcome m with Ok a => outcome (k a) | Err e => Err e end.
Proof.
  destruct m as [l [a|e]]; unfold bind, outcome; simpl; [|reflexivity].
  now destruct (k a).
Qed.

Lemma logged_bind {A B} (m : M A) (k : A -> M B) :
  logged (bind m k) =
  logged m ++ match outcome m with Ok a => logged (k a) | Err _ => [] end.
Proof.
  destruct m as [l [a|e]]; unfold bind, outcome, logged; simpl.
  - now destruct (k a).
  - now rewrite app_nil_r.
Qed.

Lemma bind_ext {A B} (m : M A) (k k' : A -> M B) :
  (forall a, k a = k' a) -> bind m k = bind m k'.
Proof.
  intros H. destruct m as [l [a|e]]; unfold bind; [|reflexivity].
  now rewrite H.
Qed.

Lemma for_each_app xs ys s :
  for_each body (xs ++ ys) s =
  (s' <~ for_each body xs s ;; for_each body ys s').
Proof.
  revert s. induction xs as [|x xs IH]; intros s; simpl.
  - now rewrite bind_ret_l.
  - rewrite bind_assoc. apply bind_ext. exact IH.
Qed.

End LoopFacts.

(* ================================================================== *)
(** * Facts about the model normaliser *)

Section ModelFacts.

Lemma resolve_name_dict m :
  resolve_name (VDict m) =
  match dict_find "name" m with
  | Some n => Ok (dict_get "identifier" n m)
  | None => Err (KeyError "name")
  end.
Proof.
  unfold resolve_name. simpl. unfold dict_item.
  now destruct (dict_find "name" m).
Qed.

Lemma resolve_name_ok_inv model name :
  resolve_name model = Ok name ->
  exists m n, model = VDict m /\ dict_find "name" m = Some n /\
              name = dict_get "identifier" n m.
Proof.
  destruct model as [| | | | |m]; try discriminate.
  rewrite resolve_name_dict.
  destruct (dict_find "name" m) as [n|] eqn:Hn; [|discriminate].
  intros [= <-]. now exists m, n.
Qed.

Lemma read_model_dict m :
  read_model (VDict m) =
  match py_iter (dict_get "columns" (VList []) m) with
  | Err e => ([], Err e)
  | Ok items =>
      mb_columns <~ read_columns items ;;
      match (name <- resolve_name (VDict m) ;; py_upper name) with
      | Err e => ([], Err e)
      | Ok name_upper =>
          ret (VDict [("name", name_upper);
                      ("description", dict_get "description" VNone m);
                      ("columns", VList mb_columns)])
      end
  end.
Proof.
  unfold read_model. do 2 lift_step.
  destruct (py_iter (dict_get "columns" (VList []) m)) as [items|];
    [|reflexivity].
  unfold read_columns. apply bind_ext. intros mb_columns.
  lift_step.
  destruct (resolve_name (VDict m)) as [name|]; [|reflexivity].
  lift_step. simpl rbind.
  destruct (py_upper name); [|reflexivity].
  now lift_step.
Qed.

Lemma read_model_not_dict model :
  is_dict model = false -> read_model model = ([], Err AttributeError).
Proof. destruct model; try reflexivity; discriminate. Qed.

(** Every normalised model carries the uppercased resolved name. *)
Lemma read_model_ok_inv model log r :
  read_model model = (log, Ok r) ->
  exists m n s columns,
    model = VDict m /\
    dict_find "name" m = Some n /\
    dict_get "identifier" n m = VStr s /\
    r = VDict [("name", VStr (upper s));
               ("description", dict_get "description" VNone m);
               ("columns", VList columns)].
Proof.
  destruct model as [| | | | |m]; try (simpl; discriminate).
  rewrite read_model_dict.
  destruct (py_iter _) as [items|]; [|discriminate].
  intros H. apply bind_ok_inv in H.
  destruct H as (l1 & columns & l2 & _ & H & _).
  rewrite resolve_name_dict in H.
  destruct (dict_find "name" m) as [n|] eqn:Hn; [|discriminate].
  simpl in H.
  destruct (dict_get "identifier" n m) as [| | |s| |] eqn:Hs; try discriminate.
  simpl in H. injection H as _ <-.
  now exists m, n, s, columns.
Qed.

(** A loop whose body returns on every element returns. *)
Lemma for_each_returns {S X} (body : S -> X -> M S) xs :
  (forall x, In x xs -> forall s, exists l s', body s x = (l, Ok s')) ->
  forall s, exists l s', for_each body xs s = (l, Ok s').
Proof.
  induction xs as [|x xs IH]; intros Hbody s; simpl.
  - now exists [], s.
  - destruct (Hbody x (or_introl eq_refl) s) as (l1 & s1 & H1).
    destruct (IH (fun y Hy => Hbody y (or_intror Hy)) s1) as (l2 & s2 & H2).
    exists (l1 ++ l2), s2. eapply bind_ok; eassumption.
Qed.

Lemma read_column_returns column :
  wf_column column = true ->
  exists log mb, read_column column = (log, Ok (VDict mb)).
Proof.
  destruct column as [| | | | |c]; try discriminate.
  intros Hwf. destruct (read_column_wf c Hwf) as (mb1 & _ & H). eauto.
Qed.

Lemma read_columns_returns items :
  forallb wf_column items = true ->
  exists log columns, read_columns items = (log, Ok columns).
Proof.
  intros Hwf. apply for_each_returns. intros column Hin acc.
  rewrite forallb_forall in Hwf.
  destruct (read_column_returns column (Hwf _ Hin)) as (l & mb & H).
  exists (l ++ []), (acc ++ [VDict mb]).
  eapply bind_ok; [exact H | reflexivity].
Qed.

Lemma read_model_returns model :
  wf_model model = true -> exists log r, read_model model = (log, Ok r).
Proof.
  destruct model as [| | | | |m]; try discriminate.
  simpl. rewrite read_model_dict, resolve_name_dict.
  destruct (dict_find "name" m) as [n|]; [|discriminate].
  destruct (dict_get "identifier" n m) as [| | |s| |]; try discriminate.
  unfold wf_columns, dict_get.
  destruct (dict_find "columns" m) as [[| | | |columns|]|]; try discriminate;
    simpl; intros Hwf.
  - destruct (read_columns_returns columns Hwf) as (l & cs & H).
    do 2 eexists. eapply bind_ok; [exact H | reflexivity].
  - do 2 eexists. unfold read_columns. simpl. rewrite bind_ret_l. reflexivity.
Qed.

End ModelFacts.

(* ================================================================== *)
(** * Properties of the model normaliser *)

Example read_identifier_only_entry :
  read_model (VDict identifier_only_entry) = ([], Err (KeyError "name")).
Proof. reflexivity. Qed.

(** C7, as stated, fails: an entry with an [identifier], no columns to
    go wrong and no [name] is not normalised under its identifier. *)
Lemma identifier_alone_does_not_name :
  ~ (forall m s,
       dict_find "identifier" m = Some (VStr s) ->
       wf_columns m = true ->
       exists log mb,
         read_model (VDict m) = (log, Ok (VDict mb)) /\
         dict_find "name" mb = Some (VStr (upper s))).
Proof.
  intros H.
  destruct (H identifier_only_entry "customers" eq_refl eq_refl)
    as (log & mb & Hread & _).
  discriminate Hread.
Qed.

(** C7, amended.  For an entry with a [name] key, the normalised
    model's name is the uppercased [identifier] when that key is present
    and the uppercased [name] otherwise, and a well-formed entry is
    normalised without raising.  An entry without a [name] key is never
    normalised, whether or not it has an [identifier]: resolving its
    name raises [KeyError] for [name], in the scanner's loops and, once
    its columns are read, in [read_model]. *)
Theorem read_model_name m :
  (forall n, dict_find "name" m = Some n ->
     (wf_model (VDict m) = true ->
        exists log r, read_model (VDict m) = (log, Ok r)) /\
     (forall log r, read_model (VDict m) = (log, Ok r) ->
        exists s mb,
          r = VDict mb /\
          dict_find "name" mb = Some (VStr (upper s)) /\
          match dict_find "identifier" m with
          | Some i => i = VStr s
          | None => n = VStr s
          end)) /\
  (dict_find "name" m = None ->
     resolve_name (VDict m) = Err (KeyError "name") /\
     (forall log r, read_model (VDict m) <> (log, Ok r)) /\
     (forall what includes excludes mb_models,
        visit what includes excludes mb_models (VDict m) =
        ([], Err (KeyError "name"))) /\
     (forall items log columns,
        py_iter (dict_get "columns" (VList []) m) = Ok items ->
        read_columns items = (log, Ok columns) ->
        read_model (VDict m) = (log, Err (KeyError "name")))).
Proof.
  split.
  - intros n Hn. split; [apply read_model_returns|].
    intros log r H. apply read_model_ok_inv in H.
    destruct H as (m' & n' & s & columns & [= <-] & Hn' & Hs & ->).
    rewrite Hn in Hn'. injection Hn' as <-.
    exists s. eexists. split; [reflexivity|]. split; [reflexivity|].
    unfold dict_get in Hs. now destruct (dict_find "identifier" m).
  - intros Hn.
    assert (Hres : resolve_name (VDict m) = Err (KeyError "name"))
      by (now rewrite resolve_name_dict, Hn).
    split; [exact Hres|]. split; [|split].
    + intros log r H. apply read_model_ok_inv in H.
      destruct H as (m' & n' & _ & _ & [= <-] & Hn' & _). congruence.
    + intros what includes excludes mb_models. unfold visit.
      now rewrite bind_lift, Hres.
    + intros items log columns Hiter Hcols.
      rewrite read_model_dict, Hiter, Hres. simpl rbind.
      rewrite <- (app_nil_r log). eapply bind_ok; [exact Hcols | reflexivity].
Qed.

Lemma read_model_name_witness :
  wf_model (VDict identified_entry) = true /\
  (exists log mb,
     read_model (VDict identified_entry) = (log, Ok (VDict mb)) /\
     dict_find "name" mb = Some (VStr "DIM_CUSTOMERS")) /\
  dict_find "name" identifier_only_entry = None /\
  resolve_name (VDict identifier_only_entry) = Err (KeyError "name").
Proof.
  destruct (read_model_name identified_entry) as [Hnamed _].
  destruct (Hnamed (VStr "customers") eq_refl) as [Hret Hprops].
  destruct (read_model_name identifier_only_entry) as [_ Hmissing].
  destruct (Hmissing eq_refl) as [Hres _].
  split; [reflexivity|]. split; [|split; [reflexivity | exact Hres]].
  destruct (Hret eq_refl) as (log & r & Hread).
  destruct (Hprops _ _ Hread) as (s & mb & -> & Hname & Hid).
  simpl in Hid. injection Hid as <-.
  now exists log, mb.
Defined.

(* ================================================================== *)
(** * Facts about the project scanner *)

Section ScannerFacts.

Variables includes excludes : list string.

Lemma visit_ok_inv what mb_models model log out :
  visit what includes excludes mb_models model = (log, Ok out) ->
  (keeps includes excludes model = true /\
   exists r, normalises model r /\ out = mb_models ++ [r]) \/
  (keeps includes excludes model = false /\ out = mb_models).
Proof.
  unfold visit, keeps, normalises. rewrite bind_lift.
  destruct (resolve_name model) as [name|]; [|discriminate].
  intros H. apply bind_ok_inv in H. destruct H as (l1 & [] & l2 & _ & H & _).
  destruct (selected includes excludes name).
  - left. split; [reflexivity|].
    apply bind_ok_inv in H. destruct H as (l3 & r & l4 & Hr & Hret & _).
    injection Hret as _ <-. exists r. now rewrite Hr.
  - right. now injection H as _ <-.
Qed.

Lemma visit_loop_ok_inv what items : forall mb_models log out,
  for_each (visit what includes excludes) items mb_models = (log, Ok out) ->
  exists rs, out = mb_models ++ rs /\
             Forall2 normalises (filter (keeps includes excludes) items) rs.
Proof.
  induction items as [|model items IH]; intros mb_models log out; simpl.
  - intros [= _ <-]. exists []. now rewrite app_nil_r.
  - intros H. apply bind_ok_inv in H.
    destruct H as (l1 & mb1 & l2 & Hvisit & Hrest & _).
    apply IH in Hrest. destruct Hrest as (rs & -> & Hrs).
    apply visit_ok_inv in Hvisit.
    destruct Hvisit as [[-> (r & Hr & ->)] | [-> ->]].
    + exists (r :: rs). rewrite <- app_assoc. split; [reflexivity|].
      now constructor.
    + now exists rs.
Qed.

Lemma visit_source_ok_inv mb_models source log out :
  visit_source includes excludes mb_models source = (log, Ok out) ->
  exists rs, out = mb_models ++ rs /\
             Forall2 normalises (filter (keeps includes excludes) (source_tables source)) rs.
Proof.
  unfold visit_source, source_tables.
  destruct source as [| | | | |s]; try (simpl; discriminate).
  lift_step. lift_step. unfold iter_or_empty.
  destruct (py_iter (dict_get "tables" (VList []) s)) as [items|];
    [|discriminate].
  apply visit_loop_ok_inv.
Qed.

Lemma sources_loop_ok_inv sources : forall mb_models log out,
  for_each (visit_source includes excludes) sources mb_models = (log, Ok out) ->
  exists rs, out = mb_models ++ rs /\
             Forall2 normalises
               (filter (keeps includes excludes) (flat_map source_tables sources)) rs.
Proof.
  induction sources as [|source sources IH]; intros mb_models log out; simpl.
  - intros [= _ <-]. exists []. now rewrite app_nil_r.
  - intros H. apply bind_ok_inv in H.
    destruct H as (l1 & mb1 & l2 & Hsource & Hrest & _).
    apply IH in Hrest. destruct Hrest as (rs2 & -> & Hrs2).
    apply visit_source_ok_inv in Hsource. destruct Hsource as (rs1 & -> & Hrs1).
    exists (rs1 ++ rs2). rewrite app_assoc. split; [reflexivity|].
    rewrite filter_app. now apply Forall2_app.
Qed.

Lemma visit_file_none mb_models path :
  visit_file includes excludes mb_models (path, VNone) =
  ([LogRecord INFO "Processing model: %s" [VStr path];
    LogRecord WARNING "Skipping empty or invalid YAML: %s" [VStr path]],
   Ok mb_models).
Proof. reflexivity. Qed.

Lemma visit_file_dict mb_models path d :
  visit_file includes excludes mb_models (path, VDict d) =
  (logging_info "Processing model: %s" [VStr path] ;;;
   models <~ lift (py_get "models" (VList []) (VDict d)) ;;
   items <~ lift (py_iter models) ;;
   mb1 <~ for_each (visit "Model: %s" includes excludes) items mb_models ;;
   sources <~ lift (py_get "sources" (VList []) (VDict d)) ;;
   srcs <~ lift (py_iter sources) ;;
   for_each (visit_source includes excludes) srcs mb1).
Proof. reflexivity. Qed.

Lemma visit_file_other mb_models path schema :
  schema <> VNone -> is_dict schema = false ->
  visit_file includes excludes mb_models (path, schema) =
  ([LogRecord INFO "Processing model: %s" [VStr path]], Err AttributeError).
Proof. destruct schema; try reflexivity; [congruence | discriminate]. Qed.

Lemma visit_file_ok_inv mb_models file log out :
  visit_file includes excludes mb_models file = (log, Ok out) ->
  exists rs, out = mb_models ++ rs /\
             Forall2 normalises (filter (keeps includes excludes) (schema_entries (snd file))) rs.
Proof.
  destruct file as [path schema].
  destruct schema as [| | | | |d];
    try (rewrite visit_file_other by (discriminate || reflexivity); discriminate).
  - rewrite visit_file_none. intros [= _ <-]. exists [].
    now rewrite app_nil_r.
  - rewrite visit_file_dict. intros H.
    apply bind_ok_inv in H. destruct H as (l0 & [] & l0' & _ & H & _).
    revert H. lift_step. lift_step. simpl snd. unfold schema_entries.
    unfold iter_or_empty at 1.
    destruct (py_iter (dict_get "models" (VList []) d)) as [items|];
      [|discriminate].
    intros H. apply bind_ok_inv in H.
    destruct H as (l1 & mb1 & l2 & Hmodels & H & _).
    revert H. lift_step. lift_step. unfold iter_or_empty.
    destruct (py_iter (dict_get "sources" (VList []) d)) as [srcs|];
      [|discriminate].
    intros Hsources.
    apply visit_loop_ok_inv in Hmodels. destruct Hmodels as (rs1 & -> & Hrs1).
    apply sources_loop_ok_inv in Hsources.
    destruct Hsources as (rs2 & -> & Hrs2).
    exists (rs1 ++ rs2). rewrite app_assoc. split; [reflexivity|].
    rewrite filter_app. now apply Forall2_app.
Qed.

Lemma files_loop_ok_inv files : forall mb_models log out,
  for_each (visit_file includes excludes) files mb_models = (log, Ok out) ->
  exists rs, out = mb_models ++ rs /\
             Forall2 normalises (filter (keeps includes excludes) (project_entries files)) rs.
Proof.
  induction files as [|file files IH]; intros mb_models log out; simpl.
  - intros [= _ <-]. exists []. now rewrite app_nil_r.
  - intros H. apply bind_ok_inv in H.
    destruct H as (l1 & mb1 & l2 & Hfile & Hrest & _).
    apply IH in Hrest. destruct Hrest as (rs2 & -> & Hrs2).
    apply visit_file_ok_inv in Hfile. destruct Hfile as (rs1 & -> & Hrs1).
    exists (rs1 ++ rs2). rewrite app_assoc. split; [reflexivity|].
    rewrite filter_app. now apply Forall2_app.
Qed.

End ScannerFacts.

Section ScannerReturns.

Variables includes excludes : list string.

Lemma visit_returns what mb_models model :
  wf_model model = true ->
  exists log out, visit what includes excludes mb_models model = (log, Ok out).
Proof.
  intros Hwf. destruct (read_model_returns model Hwf) as (l & r & Hr).
  destruct model as [| | | | |m]; try discriminate.
  unfold visit. rewrite bind_lift, resolve_name_dict.
  simpl in Hwf. destruct (dict_find "name" m) as [n|]; [|discriminate].
  destruct (selected includes excludes (dict_get "identifier" n m)).
  - do 2 eexists. eapply bind_ok; [reflexivity|].
    eapply bind_ok; [exact Hr | reflexivity].
  - do 2 eexists. eapply bind_ok; reflexivity.
Qed.

Lemma visit_loop_returns what items mb_models :
  forallb wf_model items = true ->
  exists log out,
    for_each (visit what includes excludes) items mb_models = (log, Ok out).
Proof.
  intros Hwf. apply for_each_returns. intros model Hin acc.
  rewrite forallb_forall in Hwf. now apply visit_returns, Hwf.
Qed.

Lemma visit_source_returns mb_models source :
  wf_source source = true ->
  exists log out,
    visit_source includes excludes mb_models source = (log, Ok out).
Proof.
  destruct source as [| | | | |s]; try discriminate.
  unfold visit_source. simpl. lift_step. lift_step. unfold dict_get.
  destruct (dict_find "tables" s) as [[| | | |tables|]|]; try discriminate;
    simpl; intros Hwf.
  - now apply visit_loop_returns.
  - now exists [], mb_models.
Qed.

Lemma visit_file_returns mb_models file :
  wf_schema (snd file) = true ->
  exists log out, visit_file includes excludes mb_models file = (log, Ok out).
Proof.
  destruct file as [path schema]. simpl snd.
  destruct schema as [| | | | |d]; try discriminate.
  - intros _. rewrite visit_file_none. eauto.
  - intros Hwf. simpl in Hwf. rewrite andb_true_iff in Hwf.
    destruct Hwf as [Hmodels Hsources].
    rewrite visit_file_dict.
    assert (Hm : exists items,
      py_iter (dict_get "models" (VList []) d) = Ok items /\
      forallb wf_model items = true).
    { unfold dict_get.
      destruct (dict_find "models" d) as [[| | | |models|]|];
        try discriminate; eexists; split; try reflexivity; assumption. }
    assert (Hs : exists srcs,
      py_iter (dict_get "sources" (VList []) d) = Ok srcs /\
      forallb wf_source srcs = true).
    { unfold dict_get.
      destruct (dict_find "sources" d) as [[| | | |sources|]|];
        try discriminate; eexists; split; try reflexivity; assumption. }
    destruct Hm as (items & Hitems & Hwfm).
    destruct Hs as (srcs & Hsrcs & Hwfs).
    destruct (visit_loop_returns "Model: %s" items mb_models Hwfm)
      as (l1 & mb1 & H1).
    assert (H2 : exists l2 out,
      for_each (visit_source includes excludes) srcs mb1 = (l2, Ok out)).
    { apply for_each_returns. intros source Hin acc.
      rewrite forallb_forall in Hwfs. now apply visit_source_returns, Hwfs. }
    destruct H2 as (l2 & out & H2).
    do 2 eexists.
    eapply bind_ok; [reflexivity|].
    lift_step. rewrite bind_lift, Hitems.
    eapply bind_ok; [exact H1|].
    lift_step. rewrite bind_lift, Hsrcs. exact H2.
Qed.

Lemma files_loop_returns files mb_models :
  wf_project files = true ->
  exists log out,
    for_each (visit_file includes excludes) files mb_models = (log, Ok out).
Proof.
  intros Hwf. apply for_each_returns. intros file Hin acc.
  unfold wf_project in Hwf. rewrite forallb_forall in Hwf.
  now apply visit_file_returns, Hwf.
Qed.

End ScannerReturns.

(* ================================================================== *)
(** * Properties of the project scanner *)

(** C6.  Over a project of well-formed documents [read_models] returns,
    and whenever it returns, its output is, in order, the normalised
    records of exactly the entries (models, then source tables, of each
    document) whose resolved name passes the filter: the includes list
    is empty or holds the name, and the excludes list does not hold it.
    So an empty includes list lets every name through that is not
    excluded, and an excluded name is dropped whatever the includes. *)
Theorem read_models_filter files includes excludes :
  (wf_project files = true ->
     exists log out, read_models files includes excludes = (log, Ok out)) /\
  (forall log out,
     read_models files includes excludes = (log, Ok out) ->
     Forall2 normalises
       (filter (keeps (or_empty includes) (or_empty excludes))
          (project_entries files))
       out) /\
  (forall entry,
     keeps (or_empty includes) (or_empty excludes) entry = true <->
     exists name,
       resolve_name entry = Ok name /\
       (or_empty includes = [] \/ py_in name (or_empty includes) = true) /\
       py_in name (or_empty excludes) = false) /\
  (forall name,
     selected [] (or_empty excludes) name =
     negb (py_in name (or_empty excludes))) /\
  (forall name,
     py_in name (or_empty excludes) = true ->
     selected (or_empty includes) (or_empty excludes) name = false).
Proof.
  split; [|split; [|split; [|split]]].
  - intros Hwf. unfold read_models. now apply files_loop_returns.
  - intros log out H. unfold read_models in H.
    apply files_loop_ok_inv in H. destruct H as (rs & -> & Hrs). exact Hrs.
  - intros entry. unfold keeps, selected.
    destruct (resolve_name entry) as [name|]; split.
    + intros H. apply andb_true_iff in H. destruct H as [Hinc Hexc].
      exists name. split; [reflexivity|].
      apply negb_true_iff in Hexc. split; [|assumption].
      destruct (or_empty includes); [now left | now right].
    + intros (name' & [= <-] & Hinc & Hexc). rewrite Hexc.
      destruct Hinc as [-> | ->]; [reflexivity|].
      now rewrite orb_true_r.
    + discriminate.
    + intros (name & Hname & _). discriminate.
  - reflexivity.
  - intros name Hexc. unfold selected. rewrite Hexc. apply andb_false_r.
Qed.

Example read_sample_project :
  outcome (read_models sample_project
             (Some ["orders"; "customers"; "raw_payments"])
             (Some ["customers"])) =
  Ok [VDict [("name", VStr "ORDERS"); ("description", VNone);
             ("columns", VList [])];
      VDict [("name", VStr "RAW_PAYMENTS"); ("description", VNone);
             ("columns", VList [])]].
Proof. reflexivity. Qed.

Lemma read_models_filter_witness :
  wf_project sample_project = true /\
  exists log out,
    read_models sample_project
      (Some ["orders"; "customers"; "raw_payments"]) (Some ["customers"]) =
    (log, Ok out) /\
    Forall2 normalises
      [VDict [("name", VStr "orders")];
       VDict [("name", VStr "payments"); ("identifier", VStr "raw_payments")]]
      out.
Proof.
  split; [reflexivity|].
  destruct (read_models_filter sample_project
              (Some ["orders"; "customers"; "raw_payments"])
              (Some ["customers"])) as (Hret & Hout & _).
  destruct (Hret eq_refl) as (log & out & Hread).
  exists log, out. split; [exact Hread|].
  exact (Hout _ _ Hread).
Defined.

Example read_list_document_project :
  read_models list_document_project None None =
  ([LogRecord INFO "Processing model: %s" [VStr "models/notes.yml"]],
   Err AttributeError).
Proof. reflexivity. Qed.

(** C5, as stated, fails: a document that parses to a value other than
    a mapping is not always skipped; a list aborts the scan. *)
Lemma non_mapping_document_not_skipped :
  ~ (forall pre path schema post includes excludes,
       is_dict schema = false ->
       outcome (read_models (pre ++ (path, schema) :: post) includes excludes) =
       outcome (read_models (pre ++ post) includes excludes)).
Proof.
  intros H.
  specialize (H [] "models/notes.yml" (VList [VStr "todo"])
                [("models/schema.yml", orders_schema)] None None eq_refl).
  discriminate H.
Qed.

(** C5, amended.  A document that parses to [None] is skipped: the scan
    returns, or raises, exactly what it does without that document, and
    once the documents before it have been read, the warning for its
    path is logged. *)
Theorem read_models_skips_empty_document pre path post includes excludes :
  outcome (read_models (pre ++ (path, VNone) :: post) includes excludes) =
  outcome (read_models (pre ++ post) includes excludes) /\
  (forall mb_models,
     outcome (read_models pre includes excludes) = Ok mb_models ->
     In (LogRecord WARNING "Skipping empty or invalid YAML: %s" [VStr path])
        (logged (read_models (pre ++ (path, VNone) :: post)
                   includes excludes))).
Proof.
  unfold read_models. rewrite !for_each_app. split.
  - rewrite !outcome_bind.
    destruct (outcome (for_each _ pre [])) as [mb|]; [|reflexivity].
    cbn [for_each]. rewrite visit_file_none. now rewrite outcome_bind.
  - intros mb_models Hpre. rewrite logged_bind, Hpre.
    apply in_or_app. right.
    cbn [for_each]. rewrite visit_file_none, logged_bind.
    simpl. auto.
Qed.

Lemma read_models_skips_empty_document_witness :
  outcome (read_models ([] ++ ("models/empty.yml", VNone)
                           :: [("models/schema.yml", orders_schema)])
             None (Some ["customers"])) =
  outcome (read_models ([] ++ [("models/schema.yml", orders_schema)])
             None (Some ["customers"])) /\
  In (LogRecord WARNING "Skipping empty or invalid YAML: %s"
        [VStr "models/empty.yml"])
     (logged (read_models sample_project None (Some ["customers"]))).
Proof.
  destruct (read_models_skips_empty_document
              [] "models/empty.yml" [("models/schema.yml", orders_schema)]
              None (Some ["customers"])) as [Hsame Hlog].
  split; [exact Hsame|].
  apply (Hlog []). reflexivity.
Defined.

(** C10.  The filter compares the resolved name as declared, by exact
    string equality, while the emitted name is uppercased.  So an entry
    whose declared name [n] is not itself in a non-empty includes list
    is filtered out by the loop body and by a scan of a document
    holding it, even though an includes entry [i] has the same
    uppercase form, which is the name the record would carry. *)
Theorem visit_compares_declared_name entry n i includes excludes :
  resolve_name entry = Ok (VStr n) ->
  In i includes ->
  upper i = upper n ->
  existsb (String.eqb n) includes = false ->
  (forall names, py_in (VStr n) names = true <-> In n names) /\
  (forall what mb_models,
     visit what includes excludes mb_models entry =
     ([LogRecord INFO what [VStr n]], Ok mb_models)) /\
  (forall path opt_excludes,
     outcome (read_models [(path, VDict [("models", VList [entry])])]
                (Some includes) opt_excludes) = Ok []) /\
  (forall log r,
     read_model entry = (log, Ok r) ->
     exists mb, r = VDict mb /\ dict_find "name" mb = Some (VStr (upper i))).
Proof.
  intros Hname Hin Hupper Hnot.
  assert (Hsel : forall exc, selected includes exc (VStr n) = false).
  { intros exc. unfold selected. simpl. rewrite Hnot.
    destruct includes; [contradiction | reflexivity]. }
  assert (Hvisit : forall exc what mb_models,
    visit what includes exc mb_models entry =
    ([LogRecord INFO what [VStr n]], Ok mb_models)).
  { intros exc what mb_models. unfold visit.
    rewrite bind_lift, Hname, Hsel. reflexivity. }
  split; [|split; [|split]].
  - intros names. simpl. rewrite existsb_exists. split.
    + intros (x & Hx & Heq). apply String.eqb_eq in Heq. now subst x.
    + intros H. exists n. split; [assumption | apply String.eqb_refl].
  - apply Hvisit.
  - intros path opt_excludes. unfold read_models. cbn [for_each or_empty].
    assert (Hfile : exists l,
      visit_file includes (or_empty opt_excludes) []
        (path, VDict [("models", VList [entry])]) = (l, Ok [])).
    { eexists. rewrite visit_file_dict.
      eapply bind_ok; [reflexivity|].
      lift_step. lift_step.
      eapply bind_ok;
        [cbn [for_each]; eapply bind_ok; [apply Hvisit | reflexivity]|].
      lift_step. lift_step. reflexivity. }
    destruct Hfile as [l Hfile].
    erewrite bind_ok; [|exact Hfile | reflexivity]. reflexivity.
  - intros log r H. apply read_model_ok_inv in H.
    destruct H as (m & n0 & s & columns & -> & Hn0 & Hs & ->).
    rewrite resolve_name_dict, Hn0, Hs in Hname. injection Hname as ->.
    eexists. split; [reflexivity|]. simpl. now rewrite Hupper.
Qed.

Lemma visit_compares_declared_name_witness :
  (forall what mb_models,
     visit what ["Orders"] [] mb_models (VDict [("name", VStr "orders")]) =
     ([LogRecord INFO what [VStr "orders"]], Ok mb_models)) /\
  (exists log mb,
     read_model (VDict [("name", VStr "orders")]) = (log, Ok (VDict mb)) /\
     dict_find "name" mb = Some (VStr (upper "Orders"))).
Proof.
  destruct (visit_compares_declared_name
              (VDict [("name", VStr "orders")]) "orders" "Orders"
              ["Orders"] []
              eq_refl (or_introl eq_refl) eq_refl eq_refl)
    as (_ & Hvisit & _ & Hrecord).
  split; [exact Hvisit|].
  destruct (Hrecord [] _ eq_refl) as (mb & Heq & Hfind).
  injection Heq as <-.
  eexists _, _. split; [reflexivity | exact Hfind].
Defined.

(* ================================================================== *)
(** * Further properties of the reference parser *)

Section ParserMatches.
Import Regex.

Lemma quote_not_in_name_class q :
  is_quote q = true -> in_name_class q = false.
Proof.
  unfold is_quote. rewrite orb_true_iff, !Ascii.eqb_eq.
  intros [-> | ->]; reflexivity.
Qed.

Lemma string_of_list_snoc l c s :
  (string_of_list_ascii (l ++ [c]) ++ s)%string =
  (string_of_list_ascii l ++ String c s)%string.
Proof. induction l as [|a l IH]; simpl; [reflexivity | now rewrite IH]. Qed.

Lemma plus_step cls k acc c s :
  plus cls k acc (String c s) =
  if cls c then
    match plus cls k (c :: acc) s with
    | Some r => Some r
    | None => k (string_of_list_ascii (rev (c :: acc))) s
    end
  else None.
Proof. reflexivity. Qed.

Lemma append_empty_r s : (s ++ "")%string = s.
Proof. induction s as [|a s IH]; simpl; [reflexivity | now rewrite IH]. Qed.

(** The group takes a whole run of name characters when a quote and a
    closing parenthesis follow it. *)
Lemma plus_closing name : forall c acc q rest,
  in_name_class c = true ->
  all_chars in_name_class name = true ->
  is_quote q = true ->
  plus in_name_class closing acc
    (String c (name ++ String q (String ")" rest))) =
  Some (string_of_list_ascii (rev acc) ++ String c name)%string.
Proof.
  induction name as [|d name IH]; intros c acc q rest Hc Hname Hq;
    rewrite plus_step, Hc; cbn [append].
  - rewrite plus_step, (quote_not_in_name_class q Hq).
    unfold closing, one, obind. rewrite Hq. cbn [lit]. simpl Ascii.eqb.
    cbv iota. cbn [rev]. f_equal.
    now rewrite <- (string_of_list_snoc (rev acc) c ""), append_empty_r.
  - simpl in Hname. apply andb_true_iff in Hname. destruct Hname as [Hd Hname].
    rewrite (IH d (c :: acc) q rest Hd Hname Hq).
    cbn [rev]. now rewrite string_of_list_snoc.
Qed.

Lemma lit_is_prefix p : forall s r, lit p s = Some r -> String.prefix p s = true.
Proof.
  induction p as [|a p IH]; intros [|b s] r; simpl; try discriminate;
    try reflexivity.
  destruct (Ascii.eqb a b) eqn:Hab; [|discriminate].
  apply Ascii.eqb_eq in Hab. subst b.
  destruct (ascii_dec a a); [apply IH | contradiction].
Qed.

End ParserMatches.

(** X1.  A reference expression at the head of the text is resolved to
    its name: for a non-empty name of word characters, underscores,
    hyphens and spaces, between two quote characters (of either style,
    not necessarily the same one), [parse_ref] returns the name,
    whatever follows the closing parenthesis. *)
Theorem parse_ref_of_reference name q1 q2 rest :
  name <> "" ->
  all_chars Regex.in_name_class name = true ->
  Regex.is_quote q1 = true ->
  Regex.is_quote q2 = true ->
  parse_ref ("ref(" ++ String q1 (name ++ String q2 (String ")" rest))) = name.
Proof.
  intros Hne Hname Hq1 Hq2.
  destruct name as [|c name]; [contradiction|].
  simpl in Hname. apply andb_true_iff in Hname. destruct Hname as [Hc Hname].
  unfold parse_ref.
  assert (Hhere : Regex.match_here
            ("ref(" ++ String q1 (String c name ++ String q2 (String ")" rest)))
          = Some (String c name)).
  { unfold Regex.match_here, Regex.obind. cbn [append Regex.lit].
    simpl Ascii.eqb. cbv iota. cbn [Regex.one]. rewrite Hq1.
    now rewrite (plus_closing name c [] q2 rest Hc Hname Hq2). }
  cbn [append] in *. unfold Regex.first_match. now rewrite Hhere.
Qed.

Lemma parse_ref_of_reference_witness :
  parse_ref ("ref(" ++ String "'" ("stg_orders" ++
               String Regex.dquote (String ")" " }}"))) = "stg_orders".
Proof.
  apply (parse_ref_of_reference "stg_orders" "'" Regex.dquote " }}");
    [discriminate | reflexivity | reflexivity | reflexivity].
Defined.

(** X2.  A text that does not contain [ref(] is returned unchanged. *)
Theorem parse_ref_without_reference text :
  str_contains "ref(" text = false -> parse_ref text = text.
Proof.
  intros H. unfold parse_ref.
  assert (Hnone : Regex.first_match text = None); [|now rewrite Hnone].
  induction text as [|c text IH].
  - reflexivity.
  - cbn [str_contains] in H.
    destruct (String.prefix "ref(" (String c text)) eqn:Hp; [discriminate|].
    cbn [Regex.first_match].
    assert (Hhere : Regex.match_here (String c text) = None).
    { unfold Regex.match_here, Regex.obind.
      destruct (Regex.lit "ref(" (String c text)) as [s1|] eqn:Hlit;
        [|reflexivity].
      apply lit_is_prefix in Hlit. congruence. }
    rewrite Hhere. now apply IH.
Qed.

Lemma parse_ref_without_reference_witness :
  parse_ref "analytics.dim_customers" = "analytics.dim_customers".
Proof.
  apply (parse_ref_without_reference "analytics.dim_customers"). reflexivity.
Defined.

(* ================================================================== *)
(** * Further properties of the column normaliser *)

Section ColumnFurther.

Lemma dict_mem_set key key' v d :
  dict_mem key (dict_set key' v d) = String.eqb key' key || dict_mem key d.
Proof.
  rewrite !dict_mem_find, dict_find_set.
  now destruct (String.eqb key' key).
Qed.

(** Every successful [read_column], with the loop taken apart. *)
Lemma read_column_ok_parts column log r :
  read_column column = (log, Ok r) ->
  exists c name mb1,
    column = VDict c /\
    dict_get "name" (VStr "") c = VStr name /\
    r = VDict (annotated (column_meta c) mb1) /\
    (forall key, is_fk_key key = false ->
       dict_find key mb1 =
       dict_find key [("name", VStr (upper name));
                      ("description", dict_get "description" VNone c)]) /\
    ((has_relationship_test (VDict c) = false /\
      mb1 = [("name", VStr (upper name));
             ("description", dict_get "description" VNone c)]) \/
     (has_relationship_test (VDict c) = true /\
      exists table field mbp,
        mb1 = set_fk (upper table) (upper field) mbp)).
Proof.
  intros H. apply read_column_ok_inv in H.
  destruct H as (c & mb1 & -> & Hdet & -> & _).
  destruct (detected_inv c mb1 Hdet) as (name & items & Hname & _ & Hex & Hloop).
  exists c, name, mb1. repeat split; try assumption.
  - intros key Hkey. eapply fk_loop_other; eassumption.
  - destruct (has_relationship_test (VDict c)); [right | left]; split;
      try reflexivity.
    + apply existsb_last_split in Hex.
      destruct Hex as (pre & t & post & -> & Ht & Hpost).
      apply fk_loop_last in Hloop; [|assumption].
      destruct Hloop as (mbp & _ & Hfk).
      apply detect_fk_inv in Hfk; [|assumption].
      destruct Hfk as (_ & _ & _ & field & table & _ & _ & _ & _ & _ & ->).
      now exists table, field, mbp.
    + rewrite fk_loop_skip in Hloop by assumption. now injection Hloop as <-.
Qed.



Lemma existsb_first_split {A} (p : A -> bool) l :
  existsb p l = true ->
  exists pre x post,
    l = pre ++ x :: post /\ p x = true /\ existsb p pre = false.
Proof.
  induction l as [|a l IH]; simpl; [discriminate|].
  destruct (p a) eqn:Ha.
  - intros _. now exists [], a, l.
  - simpl. intros H. destruct (IH H) as (pre & x & post & -> & Hx & Hpre).
    exists (a :: pre), x, post. simpl. now rewrite Ha.
Qed.

End ColumnFurther.

(** X3.  Whenever [read_column] returns, the column's [name] is the
    uppercased declared name (the empty string when none is declared)
    and its [description] is the declared description, [None] when none
    is declared. *)
Theorem read_column_name_and_description column log r :
  read_column column = (log, Ok r) ->
  exists c mb name,
    column = VDict c /\ r = VDict mb /\
    dict_get "name" (VStr "") c = VStr name /\
    dict_find "name" mb = Some (VStr (upper name)) /\
    dict_find "description" mb = Some (dict_get "description" VNone c).
Proof.
  intros H. apply read_column_ok_parts in H.
  destruct H as (c & name & mb1 & -> & Hname & -> & Hkeep & _).
  exists c, (annotated (column_meta c) mb1), name.
  repeat split; try assumption.
  - rewrite annotated_other by reflexivity. now rewrite Hkeep.
  - rewrite annotated_other by reflexivity. now rewrite Hkeep.
Qed.

Lemma read_column_name_and_description_witness :
  exists c mb name,
    VDict [("description", VStr "Order key")] = VDict c /\
    VDict [("name", VStr ""); ("description", VStr "Order key")] = VDict mb /\
    dict_get "name" (VStr "") c = VStr name /\
    dict_find "name" mb = Some (VStr (upper name)) /\
    dict_find "description" mb = Some (dict_get "description" VNone c).
Proof.
  apply (read_column_name_and_description
           (VDict [("description", VStr "Order key")]) []).
  reflexivity.
Defined.

(** X4.  A normalised column never carries a key other than [name],
    [description], [semantic_type], [visibility_type],
    [fk_target_table] and [fk_target_field]: no other key of the
    declaration or of its annotations is copied. *)
Theorem read_column_fields column log mb :
  read_column column = (log, Ok (VDict mb)) ->
  forall key, dict_mem key mb = true -> In key column_fields.
Proof.
  intros H key Hmem. apply read_column_ok_parts in H.
  destruct H as (c & name & mb1 & -> & _ & [= ->] & Hkeep & _).
  unfold column_fields.
  destruct (String.eqb "semantic_type" key) eqn:Hs;
    [apply String.eqb_eq in Hs; subst key; simpl; tauto|].
  destruct (String.eqb "visibility_type" key) eqn:Hv;
    [apply String.eqb_eq in Hv; subst key; simpl; tauto|].
  destruct (String.eqb "fk_target_table" key) eqn:Ht;
    [apply String.eqb_eq in Ht; subst key; simpl; tauto|].
  destruct (String.eqb "fk_target_field" key) eqn:Hf;
    [apply String.eqb_eq in Hf; subst key; simpl; tauto|].
  rewrite dict_mem_find, annotated_other in Hmem by assumption.
  rewrite Hkeep in Hmem by (unfold is_fk_key; now rewrite Hs, Ht, Hf).
  cbn [dict_find] in Hmem.
  destruct (String.eqb "name" key) eqn:Hn;
    [apply String.eqb_eq in Hn; subst key; simpl; tauto|].
  destruct (String.eqb "description" key) eqn:Hd;
    [apply String.eqb_eq in Hd; subst key; simpl; tauto|].
  discriminate.
Qed.

(** A column whose annotations hold a key the reader does not know. *)
Lemma read_column_fields_witness :
  read_column
    (VDict [("name", VStr "status");
            ("meta", VDict [("metabase.semantic_type", VStr "type/Category");
                            ("metabase.owner", VStr "finance")])]) =
  ([], Ok (VDict [("name", VStr "STATUS"); ("description", VNone);
                  ("semantic_type", VStr "type/Category")])) /\
  In "semantic_type" column_fields.
Proof.
  split; [reflexivity|].
  apply (read_column_fields
           (VDict [("name", VStr "status");
                   ("meta", VDict [("metabase.semantic_type",
                                    VStr "type/Category");
                                   ("metabase.owner", VStr "finance")])])
           []
           [("name", VStr "STATUS"); ("description", VNone);
            ("semantic_type", VStr "type/Category")]
           eq_refl "semantic_type").
  reflexivity.
Defined.

(** X5.  Whenever [read_column] returns, [visibility_type] is exactly
    the annotation [metabase.visibility_type]: present with that value
    when the mapping [meta] has the key, absent otherwise. *)
Theorem read_column_visibility_type c log mb :
  read_column (VDict c) = (log, Ok (VDict mb)) ->
  dict_find "visibility_type" mb =
  dict_find "metabase.visibility_type" (column_meta c).
Proof.
  intros H. apply read_column_ok_parts in H.
  destruct H as (c' & name & mb1 & [= <-] & _ & [= ->] & Hkeep & _).
  rewrite annotated_visibility_type, Hkeep by reflexivity. simpl.
  now destruct (dict_find "metabase.visibility_type" (column_meta c)).
Qed.

Lemma read_column_visibility_type_witness :
  dict_find "visibility_type"
    [("name", VStr "CUSTOMER_ID"); ("description", VNone);
     ("semantic_type", VStr "type/FK"); ("fk_target_table", VStr "ORDERS");
     ("fk_target_field", VStr "CUSTOMER_ID");
     ("visibility_type", VStr "hidden")] =
  dict_find "metabase.visibility_type" (column_meta deprecated_fk_column).
Proof.
  apply (read_column_visibility_type deprecated_fk_column
           [LogRecord WARNING deprecation_message []]).
  reflexivity.
Defined.

(** X6.  The explicit override wins over the reference: for a
    well-formed column whose annotations give [metabase.fk_ref] as a
    string, and whose last relationship test has strings under [to] and
    [field], [read_column] returns with [fk_target_table] equal to the
    uppercased override, whatever [to] says, and [fk_target_field] equal
    to the uppercased [field]. *)
Theorem read_column_fk_ref_override c pre t post r to field ref :
  wf_column (VDict c) = true ->
  dict_find "tests" c = Some (VList (pre ++ VDict t :: post)) ->
  existsb is_relationship_test post = false ->
  dict_find "relationships" t = Some (VDict r) ->
  dict_find "to" r = Some (VStr to) ->
  dict_find "field" r = Some (VStr field) ->
  dict_find "metabase.fk_ref" (column_meta c) = Some (VStr ref) ->
  exists log mb,
    read_column (VDict c) = (log, Ok (VDict mb)) /\
    dict_find "fk_target_table" mb = Some (VStr (upper ref)) /\
    dict_find "fk_target_field" mb = Some (VStr (upper field)).
Proof.
  intros Hwf Htests Hpost Hrel Hto Hfield Href.
  destruct (read_column_wf c Hwf) as (mb1 & Hdet & Hread).
  destruct (detected_last_relationship _ _ _ _ _ _ _ _
              Htests Hpost Hrel Hto Hfield Hdet)
    as (table & name & mbp & Htable & _ & _ & ->).
  unfold fk_table, dict_get in Htable. rewrite Href in Htable.
  injection Htable as <-.
  eexists _, _. split; [exact Hread|].
  rewrite !annotated_other by reflexivity.
  now rewrite !set_fk_find.
Qed.

(** A column that overrides the target of its relationship. *)
Lemma read_column_fk_ref_override_witness :
  exists log mb,
    read_column
      (VDict [("name", VStr "customer_id");
              ("tests", VList [relationships_test "ref('orders')" "id"]);
              ("meta", VDict [("metabase.fk_ref", VStr "analytics.orders")])]) =
    (log, Ok (VDict mb)) /\
    dict_find "fk_target_table" mb = Some (VStr "ANALYTICS.ORDERS") /\
    dict_find "fk_target_field" mb = Some (VStr "ID").
Proof.
  apply (read_column_fk_ref_override
           [("name", VStr "customer_id");
            ("tests", VList [relationships_test "ref('orders')" "id"]);
            ("meta", VDict [("metabase.fk_ref", VStr "analytics.orders")])]
           []
           [("relationships",
             VDict [("to", VStr "ref('orders')"); ("field", VStr "id")])]
           []
           [("to", VStr "ref('orders')"); ("field", VStr "id")]
           "ref('orders')" "id" "analytics.orders"); reflexivity.
Defined.

(** A relationship whose mapping has a string [to] but no [field]
    raises [KeyError] for [field]. *)
Lemma detect_fk_missing_field c mb t r to :
  wf_meta c = true ->
  dict_find "relationships" t = Some (VDict r) ->
  dict_find "to" r = Some (VStr to) ->
  dict_find "field" r = None ->
  detect_fk (VDict c) mb (VDict t) = Err (KeyError "field").
Proof.
  intros Hmeta Hrel Hto Hfield.
  destruct (wf_meta_fk_table c to Hmeta) as [Hm [table Htable]].
  unfold detect_fk. simpl.
  rewrite dict_mem_find, Hrel. simpl.
  unfold dict_item. rewrite Hrel. simpl.
  unfold fk_table, column_meta in Htable. unfold dict_get at 1.
  destruct Hm as [Hm | [m Hm]]; rewrite Hm in *; simpl;
    unfold dict_item; rewrite Hto; simpl.
  - now rewrite Hfield.
  - rewrite Htable. simpl. now rewrite Hfield.
Qed.

(** X7.  A relationship test that names its target but has no [field]
    raises [KeyError] for [field]: with a well-formed name, annotations
    and earlier tests, [read_column] logs nothing and raises it. *)
Theorem read_column_missing_field c pre t post r to :
  dict_find "tests" c = Some (VList (pre ++ VDict t :: post)) ->
  dict_find "relationships" t = Some (VDict r) ->
  dict_find "to" r = Some (VStr to) ->
  dict_find "field" r = None ->
  wf_name c = true -> wf_meta c = true -> forallb wf_test pre = true ->
  read_column (VDict c) = ([], Err (KeyError "field")).
Proof.
  intros Htests Hrel Hto Hfield Hname Hmeta Hpre.
  rewrite read_column_dict. unfold detected, dict_get.
  unfold wf_name in Hname. rewrite Htests. simpl py_iter.
  assert (Hloop : forall mb,
    rfor_each (detect_fk (VDict c)) (pre ++ VDict t :: post) mb =
    Err (KeyError "field")).
  { intros mb. rewrite rfor_each_app.
    destruct (fk_loop_wf c pre mb Hmeta Hpre) as [mbp ->]. simpl.
    now rewrite (detect_fk_missing_field c mbp t r to Hmeta Hrel Hto Hfield). }
  destruct (dict_find "name" c) as [[| | |name| |]|]; try discriminate;
    simpl; now rewrite Hloop.
Qed.

Lemma read_column_missing_field_witness :
  read_column
    (VDict [("name", VStr "customer_id");
            ("tests", VList [VDict [("relationships",
                                     VDict [("to", VStr "ref('orders')")])]])]) =
  ([], Err (KeyError "field")).
Proof.
  apply (read_column_missing_field
           [("name", VStr "customer_id");
            ("tests", VList [VDict [("relationships",
                                     VDict [("to", VStr "ref('orders')")])]])]
           []
           [("relationships", VDict [("to", VStr "ref('orders')")])]
           []
           [("to", VStr "ref('orders')")]
           "ref('orders')"); reflexivity.
Defined.

(** X8.  A declared [name] that is not a string (a number, a null) makes
    [read_column] raise [AttributeError] at once, before any test or
    annotation is looked at and with nothing logged. *)
Theorem read_column_name_not_string c v :
  dict_find "name" c = Some v ->
  is_string v = false ->
  read_column (VDict c) = ([], Err AttributeError).
Proof.
  intros Hname Hv. rewrite read_column_dict. unfold detected, dict_get.
  rewrite Hname. now destruct v.
Qed.

Lemma read_column_name_not_string_witness :
  read_column
    (VDict [("name", VInt 2021);
            ("tests", VList [relationships_test "ref('orders')" "id"])]) =
  ([], Err AttributeError).
Proof.
  apply (read_column_name_not_string
           [("name", VInt 2021);
            ("tests", VList [relationships_test "ref('orders')" "id"])]
           (VInt 2021)); reflexivity.
Defined.

(** X9.  A [tests] key whose value cannot be iterated (the null of an
    empty [tests:] key, a boolean, a number) makes [read_column] raise
    [TypeError], the name being well-formed; a missing [tests] key is
    the empty sequence. *)
Theorem read_column_tests_not_iterable c v :
  wf_name c = true ->
  dict_find "tests" c = Some v ->
  is_iterable v = false ->
  read_column (VDict c) = ([], Err TypeError).
Proof.
  intros Hname Htests Hv. rewrite read_column_dict.
  unfold detected, dict_get. unfold wf_name in Hname. rewrite Htests.
  destruct (dict_find "name" c) as [[| | |name| |]|]; try discriminate;
    destruct v; try discriminate; reflexivity.
Qed.

Lemma read_column_tests_not_iterable_witness :
  read_column (VDict [("name", VStr "status"); ("tests", VNone)]) =
  ([], Err TypeError).
Proof.
  apply (read_column_tests_not_iterable
           [("name", VStr "status"); ("tests", VNone)] VNone); reflexivity.
Defined.

(** X10.  A [meta] key whose value is not a mapping, on a column with a
    well-formed name and a [tests] list: when the list holds a
    relationship test, [read_column] raises [AttributeError] (the
    [fk_ref] lookup has no mapping to ask); when it holds none and the
    value is not even iterable (a null, a boolean, a number), it raises
    [TypeError] at the membership test. *)
Theorem read_column_meta_not_mapping c tests v :
  wf_name c = true ->
  dict_find "tests" c = Some (VList tests) ->
  dict_find "meta" c = Some v ->
  is_dict v = false ->
  (existsb is_relationship_test tests = true ->
     read_column (VDict c) = ([], Err AttributeError)) /\
  (existsb is_relationship_test tests = false ->
     is_iterable v = false ->
     read_column (VDict c) = ([], Err TypeError)).
Proof.
  intros Hname Htests Hmeta Hv. unfold wf_name in Hname.
  rewrite read_column_dict. unfold detected, dict_get.
  rewrite Htests. simpl py_iter. split.
  - intros Hex. apply existsb_first_split in Hex.
    destruct Hex as (pre & t & post & -> & Ht & Hpre).
    assert (Hloop : forall mb,
      rfor_each (detect_fk (VDict c)) (pre ++ t :: post) mb =
      Err AttributeError).
    { intros mb. rewrite rfor_each_app, (fk_loop_skip _ _ _ Hpre). simpl.
      destruct t as [| | | | |td]; try discriminate. simpl in Ht.
      unfold detect_fk. simpl. rewrite Ht. unfold dict_item.
      rewrite dict_mem_find in Ht.
      destruct (dict_find "relationships" td); [|discriminate]. simpl.
      unfold dict_get. rewrite Hmeta. now destruct v. }
    destruct (dict_find "name" c) as [[| | |name| |]|]; try discriminate;
      simpl; now rewrite Hloop.
  - intros Hex Hiter.
    assert (Hann : forall mb,
      (mb3 <~ annotate v mb ;; ret (VDict mb3)) = ([], Err TypeError)).
    { intros mb. unfold annotate. rewrite bind_lift.
      destruct v; try discriminate; reflexivity. }
    rewrite dict_mem_find, Hmeta.
    destruct (dict_find "name" c) as [[| | |name| |]|]; try discriminate;
      simpl; rewrite (fk_loop_skip _ _ _ Hex); apply Hann.
Qed.

Lemma read_column_meta_not_mapping_witness :
  read_column
    (VDict [("name", VStr "customer_id");
            ("tests", VList [relationships_test "ref('orders')" "id"]);
            ("meta", VNone)]) = ([], Err AttributeError) /\
  read_column
    (VDict [("name", VStr "customer_id");
            ("tests", VList [VStr "not_null"]);
            ("meta", VNone)]) = ([], Err TypeError).
Proof.
  split.
  - apply (read_column_meta_not_mapping
             [("name", VStr "customer_id");
              ("tests", VList [relationships_test "ref('orders')" "id"]);
              ("meta", VNone)]
             [relationships_test "ref('orders')" "id"] VNone);
      reflexivity.
  - apply (read_column_meta_not_mapping
             [("name", VStr "customer_id");
              ("tests", VList [VStr "not_null"]);
              ("meta", VNone)]
             [VStr "not_null"] VNone); reflexivity.
Defined.



(* ================================================================== *)
(** * Further properties of the model normaliser *)

Section ModelFurther.

(** The loop over the columns appends, in order, what [read_column]
    returns, and logs what the calls log. *)
Lemma columns_loop_ok_inv items : forall acc log out,
  for_each (fun acc column => c <~ read_column column ;; ret (acc ++ [c]))
    items acc = (log, Ok out) ->
  exists rs,
    out = acc ++ rs /\
    Forall2 (fun column rc => outcome (read_column column) = Ok rc) items rs /\
    log = flat_map (fun column => logged (read_column column)) items.
Proof.
  induction items as [|column items IH]; intros acc log out; cbn [for_each].
  - intros [= <- <-]. exists []. now rewrite app_nil_r.
  - intros H. apply bind_ok_inv in H.
    destruct H as (l1 & a & l2 & Hbody & Hrest & ->).
    apply bind_ok_inv in Hbody.
    destruct Hbody as (l3 & rc & l4 & Hcol & [= <- <-] & ->).
    apply IH in Hrest. destruct Hrest as (rs & -> & Hrs & ->).
    exists (rc :: rs). rewrite <- app_assoc. split; [reflexivity|].
    split.
    + constructor; [now rewrite Hcol | assumption].
    + cbn [flat_map]. rewrite Hcol. unfold logged at 1. simpl fst.
      now rewrite app_nil_r.
Qed.

Lemma columns_loop_returns items : forall acc,
  forallb (fun column => returns_ok (read_column column)) items = true ->
  exists log out,
    for_each (fun acc column => c <~ read_column column ;; ret (acc ++ [c]))
      items acc = (log, Ok out).
Proof.
  intros acc Hok. apply for_each_returns. intros column Hin s.
  rewrite forallb_forall in Hok. specialize (Hok _ Hin).
  unfold returns_ok, outcome in Hok.
  destruct (read_column column) as [l [rc|e]] eqn:Hcol; [|discriminate].
  exists (l ++ []), (s ++ [rc]). eapply bind_ok; [reflexivity | reflexivity].
Qed.

End ModelFurther.

(** X12.  Whenever [read_model] returns, the record has exactly the
    keys [name], [description] and [columns]: the uppercased resolved
    name, the declared description ([None] when there is none), and the
    columns [read_column] returns for the declared columns, one for
    each and in declaration order; what it logs is what these calls
    log, in the same order. *)
Theorem read_model_record model log r :
  read_model model = (log, Ok r) ->
  exists m n s items columns,
    model = VDict m /\
    dict_find "name" m = Some n /\
    dict_get "identifier" n m = VStr s /\
    py_iter (dict_get "columns" (VList []) m) = Ok items /\
    Forall2 (fun column rc => outcome (read_column column) = Ok rc)
      items columns /\
    r = VDict [("name", VStr (upper s));
               ("description", dict_get "description" VNone m);
               ("columns", VList columns)] /\
    log = flat_map (fun column => logged (read_column column)) items.
Proof.
  destruct model as [| | | | |m]; try (simpl; discriminate).
  rewrite read_model_dict.
  destruct (py_iter _) as [items|] eqn:Hiter; [|discriminate].
  intros H. apply bind_ok_inv in H.
  destruct H as (l1 & columns & l2 & Hcols & H & ->).
  rewrite resolve_name_dict in H.
  destruct (dict_find "name" m) as [n|] eqn:Hn; [|discriminate].
  simpl in H.
  destruct (dict_get "identifier" n m) as [| | |s| |] eqn:Hs; try discriminate.
  simpl in H. injection H as <- <-.
  apply columns_loop_ok_inv in Hcols.
  destruct Hcols as (rs & Hout & Hrs & ->). simpl in Hout. subst rs.
  exists m, n, s, items, columns.
  repeat split; try assumption. now rewrite app_nil_r.
Qed.

(** A model with two columns, the second with the deprecated
    annotation. *)
Lemma read_model_record_witness :
  exists m n s items columns,
    VDict [("name", VStr "orders");
           ("columns",
            VList [customer_id_column; VDict deprecated_fk_column])] =
    VDict m /\
    dict_find "name" m = Some n /\
    dict_get "identifier" n m = VStr s /\
    py_iter (dict_get "columns" (VList []) m) = Ok items /\
    Forall2 (fun column rc => outcome (read_column column) = Ok rc)
      items columns /\
    outcome
      (read_model
         (VDict [("name", VStr "orders");
                 ("columns",
                  VList [customer_id_column; VDict deprecated_fk_column])])) =
    Ok (VDict [("name", VStr (upper s));
               ("description", dict_get "description" VNone m);
               ("columns", VList columns)]) /\
    [LogRecord WARNING deprecation_message []] =
    flat_map (fun column => logged (read_column column)) items.
Proof.
  destruct (read_model
              (VDict [("name", VStr "orders");
                      ("columns",
                       VList [customer_id_column;
                              VDict deprecated_fk_column])]))
    as [log res] eqn:Hread.
  assert (Hval : (log, res) =
    ([LogRecord WARNING deprecation_message []],
     Ok (VDict [("name", VStr "ORDERS"); ("description", VNone);
                ("columns",
                 VList [VDict [("name", VStr "CUSTOMER_ID");
                               ("description", VNone);
                               ("semantic_type", VStr "type/FK");
                               ("fk_target_table", VStr "ORDERS");
                               ("fk_target_field", VStr "CUSTOMER_ID")];
                        VDict [("name", VStr "CUSTOMER_ID");
                               ("description", VNone);
                               ("semantic_type", VStr "type/FK");
                               ("fk_target_table", VStr "ORDERS");
                               ("fk_target_field", VStr "CUSTOMER_ID");
                               ("visibility_type", VStr "hidden")]])])))
    by (rewrite <- Hread; reflexivity).
  injection Hval as -> ->.
  destruct (read_model_record _ _ _ Hread)
    as (m & n & s & items & columns & Hm & Hn & Hs & Hiter & Hcols & Hr & Hlog).
  exists m, n, s, items, columns.
  repeat split; try assumption.
  unfold outcome. simpl snd. now rewrite Hr.
Defined.

(** X13.  The first column that raises decides how [read_model] ends:
    when the columns before it are normalised and [read_column] raises
    on it, [read_model] raises the same exception, whatever the rest of
    the entry (its name included) looks like. *)
Theorem read_model_column_error m pre column post e :
  py_iter (dict_get "columns" (VList []) m) = Ok (pre ++ column :: post) ->
  forallb (fun c => returns_ok (read_column c)) pre = true ->
  outcome (read_column column) = Err e ->
  outcome (read_model (VDict m)) = Err e.
Proof.
  intros Hiter Hpre Hcol. rewrite read_model_dict, Hiter, outcome_bind.
  unfold read_columns. rewrite for_each_app, outcome_bind.
  destruct (columns_loop_returns pre [] Hpre) as (l & out & ->).
  change (outcome (l, Ok out)) with (Ok out). cbv iota.
  cbn [for_each]. now rewrite !outcome_bind, Hcol.
Qed.

(** An entry without a name whose only column has a null name. *)
Lemma read_model_column_error_witness :
  outcome (read_model
             (VDict [("columns", VList [VDict [("name", VNone)]])])) =
  Err AttributeError.
Proof.
  apply (read_model_column_error
           [("columns", VList [VDict [("name", VNone)]])]
           [] (VDict [("name", VNone)]) []); reflexivity.
Defined.

(** X14.  A resolved name that is not a string (a numeric [name], a
    null [identifier]) makes [read_model] raise [AttributeError], once
    its columns have been read, with their log. *)
Theorem read_model_resolved_name_not_string m n items log columns :
  py_iter (dict_get "columns" (VList []) m) = Ok items ->
  read_columns items = (log, Ok columns) ->
  dict_find "name" m = Some n ->
  is_string (dict_get "identifier" n m) = false ->
  read_model (VDict m) = (log, Err AttributeError).
Proof.
  intros Hiter Hcols Hn Hs.
  rewrite read_model_dict, Hiter, resolve_name_dict, Hn. simpl rbind.
  rewrite <- (app_nil_r log). eapply bind_ok; [exact Hcols|].
  now destruct (dict_get "identifier" n m).
Qed.

Lemma read_model_resolved_name_not_string_witness :
  read_model (VDict [("name", VStr "orders"); ("identifier", VNone)]) =
  ([], Err AttributeError).
Proof.
  apply (read_model_resolved_name_not_string
           [("name", VStr "orders"); ("identifier", VNone)]
           (VStr "orders") [] [] []); reflexivity.
Defined.

(* ================================================================== *)
(** * Further properties of the project scanner *)

Section ScannerFurther.

Variables includes excludes : list string.

Lemma for_each_shift {X} (body : list value -> X -> M (list value)) :
  appends body ->
  forall xs acc,
    for_each body xs acc = (r <~ for_each body xs [] ;; ret (acc ++ r)).
Proof.
  intros Hbody. induction xs as [|x xs IH]; intros acc; cbn [for_each].
  - now rewrite bind_ret_l, app_nil_r.
  - rewrite (Hbody acc x), !bind_assoc. apply bind_ext. intros r.
    rewrite bind_ret_l, (IH (acc ++ r)), (IH r), bind_assoc.
    apply bind_ext. intros r2. now rewrite bind_ret_l, app_assoc.
Qed.

Lemma visit_appends what : appends (visit what includes excludes).
Proof.
  intros acc model. unfold visit. rewrite !bind_lift.
  destruct (resolve_name model) as [name|]; [|reflexivity].
  rewrite bind_assoc. apply bind_ext. intros _.
  destruct (selected includes excludes name).
  - rewrite bind_assoc. apply bind_ext. intros m. now rewrite bind_ret_l.
  - now rewrite bind_ret_l, app_nil_r.
Qed.

Lemma visit_source_appends : appends (visit_source includes excludes).
Proof.
  intros acc source. unfold visit_source. rewrite !bind_lift.
  destruct (py_get "tables" (VList []) source) as [tables|]; [|reflexivity].
  rewrite !bind_lift.
  destruct (py_iter tables) as [items|]; [|reflexivity].
  apply for_each_shift, visit_appends.
Qed.

Lemma visit_file_appends : appends (visit_file includes excludes).
Proof.
  intros acc [path schema].
  destruct schema as [| | | | |d]; try reflexivity.
  - rewrite !visit_file_none. unfold bind, ret. simpl.
    now rewrite app_nil_r.
  - rewrite !visit_file_dict, bind_assoc. apply bind_ext. intros _.
    rewrite !bind_lift.
    destruct (py_get "models" (VList []) (VDict d)) as [models|];
      [|reflexivity].
    rewrite !bind_lift.
    destruct (py_iter models) as [items|]; [|reflexivity].
    rewrite (for_each_shift _ (visit_appends "Model: %s") items acc).
    rewrite !bind_assoc. apply bind_ext. intros mb1.
    rewrite bind_ret_l, !bind_lift.
    destruct (py_get "sources" (VList []) (VDict d)) as [sources|];
      [|reflexivity].
    rewrite !bind_lift.
    destruct (py_iter sources) as [srcs|]; [|reflexivity].
    rewrite (for_each_shift _ visit_source_appends srcs (acc ++ mb1)).
    rewrite (for_each_shift _ visit_source_appends srcs mb1).
    rewrite bind_assoc. apply bind_ext. intros r.
    now rewrite bind_ret_l, app_assoc.
Qed.

End ScannerFurther.

(** X15.  Scanning is compositional in the list of documents: scanning
    the documents [files1] followed by [files2] is scanning [files1],
    then [files2], and appending the two outputs, with the same log and
    the same exception if one is raised.  Nothing but the output list is
    carried from one document to the next, and nothing is merged or
    deduplicated. *)
Theorem read_models_app files1 files2 includes excludes :
  read_models (files1 ++ files2) includes excludes =
  (out1 <~ read_models files1 includes excludes ;;
   out2 <~ read_models files2 includes excludes ;;
   ret (out1 ++ out2)).
Proof.
  unfold read_models. rewrite for_each_app. apply bind_ext. intros out1.
  apply for_each_shift, visit_file_appends.
Qed.

Section ScannerLog.

Variables includes excludes : list string.

Lemma no_file_record_bind {A B} (m : M A) (k : A -> M B) :
  no_file_record (logged m) ->
  (forall a, no_file_record (logged (k a))) ->
  no_file_record (logged (bind m k)).
Proof.
  intros Hm Hk. rewrite logged_bind. apply Forall_app. split; [assumption|].
  destruct (outcome m); [apply Hk | constructor].
Qed.

Lemma no_file_record_lift {A B} (r : result A) (k : A -> M B) :
  (forall a, no_file_record (logged (k a))) ->
  no_file_record (logged (bind (lift r) k)).
Proof. intros Hk. apply no_file_record_bind; [constructor | assumption]. Qed.

Lemma no_file_record_ret {A} (a : A) : no_file_record (logged (ret a)).
Proof. constructor. Qed.

Lemma no_file_record_for_each {S X} (body : S -> X -> M S) xs :
  (forall s x, no_file_record (logged (body s x))) ->
  forall s, no_file_record (logged (for_each body xs s)).
Proof.
  intros Hbody. induction xs as [|x xs IH]; intros s; cbn [for_each].
  - apply no_file_record_ret.
  - apply no_file_record_bind; [apply Hbody | apply IH].
Qed.

(** [read_column] logs nothing but the deprecation warning. *)
Lemma read_column_no_file_record column :
  no_file_record (logged (read_column column)).
Proof.
  unfold read_column.
  do 7 (apply no_file_record_lift; intros ?).
  match goal with
  | |- context [if ?b then _ else _] =>
      destruct b; [|apply no_file_record_ret]
  end.
  do 2 (apply no_file_record_lift; intros ?).
  apply no_file_record_bind; [|intros; apply no_file_record_ret].
  unfold apply_special_type. apply no_file_record_lift. intros found.
  destruct found; [|apply no_file_record_ret].
  apply no_file_record_bind; [repeat constructor|]. intros _.
  destruct (negb _); [|apply no_file_record_ret].
  apply no_file_record_lift. intros; apply no_file_record_ret.
Qed.

Lemma read_model_no_file_record model :
  no_file_record (logged (read_model model)).
Proof.
  unfold read_model.
  do 2 (apply no_file_record_lift; intros ?).
  apply no_file_record_bind.
  - apply no_file_record_for_each. intros acc column.
    apply no_file_record_bind; [apply read_column_no_file_record|].
    intros; apply no_file_record_ret.
  - intros mb_columns.
    do 3 (apply no_file_record_lift; intros ?). apply no_file_record_ret.
Qed.

Lemma visit_no_file_record what mb_models model :
  is_file_record (LogRecord INFO what []) = false ->
  no_file_record (logged (visit what includes excludes mb_models model)).
Proof.
  intros Hwhat. unfold visit. apply no_file_record_lift. intros name.
  apply no_file_record_bind; [repeat constructor; exact Hwhat|]. intros _.
  destruct (selected includes excludes name); [|apply no_file_record_ret].
  apply no_file_record_bind; [apply read_model_no_file_record|].
  intros; apply no_file_record_ret.
Qed.

Lemma visit_source_no_file_record mb_models source :
  no_file_record (logged (visit_source includes excludes mb_models source)).
Proof.
  unfold visit_source. do 2 (apply no_file_record_lift; intros ?).
  apply no_file_record_for_each. intros acc model.
  now apply visit_no_file_record.
Qed.

Lemma filter_no_file_record log :
  no_file_record log -> filter is_file_record log = [].
Proof.
  induction 1 as [|r log Hr _ IH]; simpl; [reflexivity|].
  now rewrite Hr.
Qed.

(** The records about a document in what its visit logs, whether the
    visit returns or raises. *)
Lemma visit_file_records mb_models file :
  filter is_file_record
    (logged (visit_file includes excludes mb_models file)) =
  file_records file.
Proof.
  destruct file as [path schema].
  destruct schema as [| | | | |d]; try reflexivity.
  rewrite visit_file_dict, logged_bind. simpl logged at 1. simpl outcome.
  cbv iota. rewrite filter_app. simpl filter at 1.
  rewrite filter_no_file_record; [reflexivity|].
  do 2 (apply no_file_record_lift; intros ?).
  apply no_file_record_bind.
  - apply no_file_record_for_each. intros acc model.
    now apply visit_no_file_record.
  - intros mb1. do 2 (apply no_file_record_lift; intros ?).
    apply no_file_record_for_each. intros acc source.
    apply visit_source_no_file_record.
Qed.

Lemma files_loop_records files : forall mb_models log out,
  for_each (visit_file includes excludes) files mb_models = (log, Ok out) ->
  filter is_file_record log = flat_map file_records files.
Proof.
  induction files as [|file files IH]; intros mb_models log out;
    cbn [for_each flat_map].
  - now intros [= <- _].
  - intros H. apply bind_ok_inv in H.
    destruct H as (l1 & mb1 & l2 & Hfile & Hrest & ->).
    rewrite filter_app, (IH _ _ _ Hrest). f_equal.
    rewrite <- (visit_file_records mb_models file). now rewrite Hfile.
Qed.

End ScannerLog.

(** X16.  The log of a scan that returns tells which documents were
    read: its records about documents are, in the order of the scan,
    one [Processing model] record for every document, followed by one
    [Skipping empty or invalid YAML] warning for every document that
    parsed to [None] and for no other. *)
Theorem read_models_file_records files includes excludes log out :
  read_models files includes excludes = (log, Ok out) ->
  filter is_file_record log = flat_map file_records files.
Proof. unfold read_models. apply files_loop_records. Qed.

Lemma read_models_file_records_witness :
  filter is_file_record
    (logged (read_models sample_project None (Some ["customers"]))) =
  [processing_record "models/empty.yml"; skipping_record "models/empty.yml";
   processing_record "models/schema.yml"].
Proof.
  destruct (read_models sample_project None (Some ["customers"]))
    as [log [out|e]] eqn:Hread.
  - apply (read_models_file_records sample_project None (Some ["customers"])
             log out Hread).
  - discriminate Hread.
Defined.

(** X17.  A document whose [models] key holds a value that cannot be
    iterated (the null of an empty [models:] key, a number) stops the
    scan with [TypeError]: after the documents before it have been
    read, the log ends with its [Processing model] record and no later
    document is read. *)
Theorem read_models_models_not_iterable
    pre path d v post includes excludes out :
  outcome (read_models pre includes excludes) = Ok out ->
  dict_find "models" d = Some v ->
  is_iterable v = false ->
  read_models (pre ++ (path, VDict d) :: post) includes excludes =
  (logged (read_models pre includes excludes) ++ [processing_record path],
   Err TypeError).
Proof.
  intros Hpre Hmodels Hv. unfold read_models in *. rewrite for_each_app.
  destruct (for_each _ pre []) as [l [a|e]]; [|discriminate].
  simpl logged. eapply bind_ok; [reflexivity|].
  cbn [for_each].
  assert (Hfile : visit_file (or_empty includes) (or_empty excludes) a
                    (path, VDict d) =
                  ([processing_record path], Err TypeError)).
  { rewrite visit_file_dict.
    change [processing_record path] with ([processing_record path] ++ []).
    eapply bind_ok; [reflexivity|].
    lift_step. rewrite bind_lift. unfold dict_get. rewrite Hmodels.
    now destruct v. }
  now rewrite Hfile.
Qed.

Lemma read_models_models_not_iterable_witness :
  read_models ([("models/empty.yml", VNone)] ++
               ("models/staging.yml", VDict [("models", VNone)]) ::
               [("models/schema.yml", orders_schema)]) None None =
  ([processing_record "models/empty.yml"; skipping_record "models/empty.yml";
    processing_record "models/staging.yml"],
   Err TypeError).
Proof.
  apply (read_models_models_not_iterable
           [("models/empty.yml", VNone)] "models/staging.yml"
           [("models", VNone)] VNone
           [("models/schema.yml", orders_schema)] None None []);
    reflexivity.
Defined.

(* ================================================================== *)
(** * What a changed text looked like *)

Section ParserInversion.
Import Regex.

Lemma closing_inv captured s r :
  closing captured s = Some r ->
  exists q rest, s = String q (String ")" rest) /\ is_quote q = true /\
                 r = captured.
Proof.
  unfold closing, obind, one.
  destruct s as [|q s1]; [discriminate|].
  destruct (is_quote q) eqn:Hq; [|discriminate].
  destruct (lit ")" s1) as [rest|] eqn:Hlit; [|discriminate].
  intros [= <-]. apply RegexFacts.lit_prefix in Hlit. subst s1.
  now exists q, rest.
Qed.

(** What the group matched: a non-empty run of name characters, then a
    quote and the closing parenthesis. *)
Lemma plus_closing_inv s : forall acc r,
  plus in_name_class closing acc s = Some r ->
  exists name q rest,
    s = (name ++ String q (String ")" rest))%string /\
    name <> "" /\
    all_chars in_name_class name = true /\
    is_quote q = true /\
    r = (string_of_list_ascii (rev acc) ++ name)%string.
Proof.
  induction s as [|c s IH]; intros acc r; [discriminate|].
  rewrite plus_step.
  destruct (in_name_class c) eqn:Hc; [|discriminate].
  destruct (plus in_name_class closing (c :: acc) s) as [r'|] eqn:Hplus.
  - intros [= <-]. apply IH in Hplus.
    destruct Hplus as (name & q & rest & -> & _ & Hname & Hq & ->).
    exists (String c name), q, rest. cbn [append all_chars rev].
    rewrite Hc, Hname, string_of_list_snoc.
    repeat split; try assumption; discriminate.
  - intros H. apply closing_inv in H.
    destruct H as (q & rest & -> & Hq & ->).
    exists (String c ""), q, rest. cbn [append all_chars rev].
    rewrite Hc, <- (string_of_list_snoc (rev acc) c ""), append_empty_r.
    repeat split; try assumption; discriminate.
Qed.

Lemma match_here_inv s r :
  match_here s = Some r ->
  exists q1 q2 rest,
    s = ("ref(" ++ String q1 (r ++ String q2 (String ")" rest)))%string /\
    is_quote q1 = true /\ is_quote q2 = true /\
    r <> "" /\ all_chars in_name_class r = true.
Proof.
  unfold match_here, obind.
  destruct (lit "ref(" s) as [s1|] eqn:Hlit; [|discriminate].
  apply RegexFacts.lit_prefix in Hlit. subst s.
  unfold one. destruct s1 as [|q1 s2]; [discriminate|].
  destruct (is_quote q1) eqn:Hq1; [|discriminate].
  intros H. apply plus_closing_inv in H.
  destruct H as (name & q2 & rest & -> & Hne & Hname & Hq2 & ->).
  now exists q1, q2, rest.
Qed.

Lemma first_match_inv s : forall r,
  first_match s = Some r ->
  exists pre q1 q2 rest,
    s = (pre ++ "ref(" ++
         String q1 (r ++ String q2 (String ")" rest)))%string /\
    is_quote q1 = true /\ is_quote q2 = true /\
    r <> "" /\ all_chars in_name_class r = true.
Proof.
  induction s as [|c s IH]; intros r; cbn [first_match].
  - destruct (match_here "") eqn:H; [discriminate H | discriminate].
  - destruct (match_here (String c s)) as [g|] eqn:Hhere.
    + intros [= <-]. apply match_here_inv in Hhere.
      destruct Hhere as (q1 & q2 & rest & Hs & Hq).
      exists "", q1, q2, rest. split; [exact Hs | exact Hq].
    + intros H. apply IH in H.
      destruct H as (pre & q1 & q2 & rest & -> & Hq).
      exists (String c pre), q1, q2, rest. split; [reflexivity | exact Hq].
Qed.

End ParserInversion.

(** X18.  [parse_ref] changes a text only by resolving a reference that
    is in it: when the result differs from the text, the text contains
    [ref(], a quote character, the result, a quote character and [)],
    and the result is a non-empty run of word characters, underscores,
    hyphens and spaces. *)
Theorem parse_ref_changed text :
  parse_ref text <> text ->
  exists pre q1 q2 rest,
    text = (pre ++ "ref(" ++
            String q1 (parse_ref text ++ String q2 (String ")" rest)))%string /\
    Regex.is_quote q1 = true /\ Regex.is_quote q2 = true /\
    parse_ref text <> "" /\
    all_chars Regex.in_name_class (parse_ref text) = true.
Proof.
  unfold parse_ref.
  destruct (Regex.first_match text) as [r|] eqn:H; [|contradiction].
  intros _. now apply first_match_inv.
Qed.

Lemma parse_ref_changed_witness :
  exists pre q1 q2 rest,
    "{{ ref('orders') }}" =
    (pre ++ "ref(" ++
     String q1 (parse_ref "{{ ref('orders') }}" ++
                String q2 (String ")" rest)))%string /\
    Regex.is_quote q1 = true /\ Regex.is_quote q2 = true /\
    parse_ref "{{ ref('orders') }}" <> "" /\
    all_chars Regex.in_name_class (parse_ref "{{ ref('orders') }}") = true.
Proof.
  apply (parse_ref_changed "{{ ref('orders') }}"). discriminate.
Defined.
